(** * Addressing and configuration assembly of the BGP lab generator

  A shallow embedding of the deterministic part of [src/main.py]:
  [generate_31_subnets], [generate_frrouter_addressing_info], the
  configuration assembly steps of [main] and its deployment check,
  [write_configuration_to_file] and the files [main] writes,
  [generate_clab_yml_config] and the chat loop of [start_gpt4_chat],
  together with the pieces of the Python runtime they rest on (list and
  dict operations, [str.split], [str], [repr], [range], the [ipaddress]
  module for IPv4 and [subprocess.Popen.communicate]).  The two calls
  that only ask the completion service ([generate_topology],
  [generate_bgp_troubleshooting_scenario]) are outside.

  Python exceptions are values of [exn]; a computation that may raise
  returns a [result].  The subnet pool is a Python list that
  [generate_frrouter_addressing_info] mutates through [pop]; it is
  threaded as explicit state that survives a raised exception, the way the
  caller's list does. *)

From Stdlib Require Import ZArith String Ascii List Bool Lia.
From Stdlib Require Import DecimalString DecimalN DecimalZ.
Import ListNotations.

Local Open Scope string_scope.
Local Open Scope list_scope.
Local Open Scope Z_scope.

(** ** Python runtime *)

Module Py.

(** Exception classes the program can meet, each with its message.  The
    two [ipaddress] classes are subclasses of [ValueError] in Python; they
    are kept apart because [ip_network] catches exactly them. *)
Inductive exn : Type :=
| ValueError (msg : string)
| AddressValueError (msg : string)
| NetmaskValueError (msg : string)
| TypeError (msg : string)
| KeyError (key : string)
| IndexError (msg : string)
| AttributeError (msg : string).

Inductive result (A : Type) : Type :=
| Ok (a : A)
| Raise (e : exn).
Arguments Ok {A} a.
Arguments Raise {A} e.

Definition bind {A B : Type} (m : result A) (k : A -> result B) : result B :=
  match m with
  | Ok a => k a
  | Raise e => Raise e
  end.

Fixpoint mapM {A B : Type} (f : A -> result B) (l : list A) : result (list B) :=
  match l with
  | [] => Ok []
  | x :: xs =>
      bind (f x) (fun y => bind (mapM f xs) (fun ys => Ok (y :: ys)))
  end.

(** The line feed written ["\n"] in the source. *)
Definition nl : string := String (ascii_of_nat 10) EmptyString.

(** [str(n)] for an integer. *)
Definition str_int (n : Z) : string := NilZero.string_of_int (Z.to_int n).

(** [sep.join(parts)]. *)
Fixpoint join (sep : string) (parts : list string) : string :=
  match parts with
  | [] => EmptyString
  | [p] => p
  | p :: rest => (p ++ sep ++ join sep rest)%string
  end.

(** [s.split(c)] for a one-character separator: never the empty list. *)
Fixpoint split_on (c : ascii) (s : string) : list string :=
  match s with
  | EmptyString => [EmptyString]
  | String a rest =>
      if Ascii.eqb a c then EmptyString :: split_on c rest
      else match split_on c rest with
           | hd :: tl => String a hd :: tl
           | [] => [String a EmptyString]
           end
  end.

(** [needle in s] on strings. *)
Definition str_contains (needle s : string) : bool :=
  match String.index 0 needle s with
  | Some _ => true
  | None => false
  end.

(** Values that [yaml.safe_load] hands to the program.  Mapping keys are
    strings, the only keys the program ever looks up. *)
#[warnings="-register-all"]
Inductive pyval : Type :=
| PyNone
| PyBool (b : bool)
| PyInt (n : Z)
| PyStr (s : string)
| PyList (items : list pyval)
| PyDict (entries : list (string * pyval)).

(** Insertion-ordered [dict] with string keys. *)
Definition dict (V : Type) : Type := list (string * V).

Fixpoint dict_get {V : Type} (k : string) (d : dict V) : option V :=
  match d with
  | [] => None
  | (k', v) :: rest => if String.eqb k k' then Some v else dict_get k rest
  end.

(** [k in d]. *)
Definition dict_mem {V : Type} (k : string) (d : dict V) : bool :=
  match dict_get k d with
  | Some _ => true
  | None => false
  end.

(** [d[k] = v]: an existing key keeps its position, a new one goes last. *)
Fixpoint dict_set {V : Type} (k : string) (v : V) (d : dict V) : dict V :=
  match d with
  | [] => [(k, v)]
  | (k', v') :: rest =>
      if String.eqb k k' then (k', v) :: rest
      else (k', v') :: dict_set k v rest
  end.

Definition dict_keys {V : Type} (d : dict V) : list string := map fst d.

(** [d[k]], raising [KeyError] on a missing key. *)
Definition dict_getitem {V : Type} (k : string) (d : dict V) : result V :=
  match dict_get k d with
  | Some v => Ok v
  | None => Raise (KeyError k)
  end.

(** [needle in v]. *)
Definition py_contains (needle : string) (v : pyval) : result bool :=
  match v with
  | PyDict d => Ok (dict_mem needle d)
  | PyStr s => Ok (str_contains needle s)
  | PyList l =>
      Ok (existsb (fun x => match x with
                            | PyStr s => String.eqb s needle
                            | _ => false
                            end) l)
  | _ => Raise (TypeError "argument is not iterable")
  end.

(** [v[key]] with a string key. *)
Definition py_getitem_str (v : pyval) (key : string) : result pyval :=
  match v with
  | PyDict d => dict_getitem key d
  | PyStr _ => Raise (TypeError "string indices must be integers")
  | PyList _ => Raise (TypeError "list indices must be integers or slices, not str")
  | _ => Raise (TypeError "object is not subscriptable")
  end.

(** [v[i]] with a non-negative integer literal.  A mapping is searched for
    the integer key, which a mapping with string keys never has. *)
Definition py_getitem_int (v : pyval) (i : nat) : result pyval :=
  match v with
  | PyList l =>
      match nth_error l i with
      | Some x => Ok x
      | None => Raise (IndexError "list index out of range")
      end
  | PyStr s =>
      match String.get i s with
      | Some c => Ok (PyStr (String c EmptyString))
      | None => Raise (IndexError "string index out of range")
      end
  | PyDict _ => Raise (KeyError (str_int (Z.of_nat i)))
  | _ => Raise (TypeError "object is not subscriptable")
  end.

(** The items [for x in v] visits. *)
Definition py_iter (v : pyval) : result (list pyval) :=
  match v with
  | PyList l => Ok l
  | PyStr s => Ok (map (fun c => PyStr (String c EmptyString)) (list_ascii_of_string s))
  | PyDict d => Ok (map (fun kv => PyStr (fst kv)) d)
  | _ => Raise (TypeError "object is not iterable")
  end.

(** [v.split(c)]. *)
Definition py_split (v : pyval) (c : ascii) : result (list string) :=
  match v with
  | PyStr s => Ok (split_on c s)
  | _ => Raise (AttributeError "object has no attribute 'split'")
  end.

(** [a, b = xs]. *)
Definition unpack2 {A : Type} (xs : list A) : result (A * A) :=
  match xs with
  | [a; b] => Ok (a, b)
  | _ :: _ :: _ :: _ => Raise (ValueError "too many values to unpack (expected 2)")
  | _ => Raise (ValueError "not enough values to unpack (expected 2)")
  end.

(** [l.pop()]: the last element and the list without it. *)
Definition list_pop {A : Type} (l : list A) : result (A * list A) :=
  match rev l with
  | [] => Raise (IndexError "pop from empty list")
  | x :: r => Ok (x, rev r)
  end.

(** [l.insert(i, x)] for [i >= 0]; an index past the end appends. *)
Definition list_insert {A : Type} (i : nat) (x : A) (l : list A) : list A :=
  firstn i l ++ x :: skipn i l.

(** [l.append(x)]. *)
Definition list_append {A : Type} (x : A) (l : list A) : list A := l ++ [x].

(** [len(range(start, stop, step))] for a non-zero step. *)
Definition range_len (start stop step : Z) : Z :=
  if 0 <? step then
    if start <? stop then (stop - start - 1) / step + 1 else 0
  else
    if stop <? start then (start - stop - 1) / (- step) + 1 else 0.

(** [range(start, stop, step)]. *)
Definition range (start stop step : Z) : result (list Z) :=
  if step =? 0 then Raise (ValueError "range() arg 3 must not be zero")
  else Ok (map (fun i => start + step * Z.of_nat i)
               (seq 0 (Z.to_nat (range_len start stop step)))).

End Py.

Import Py.

Declare Scope py_scope.
Notation "x <- m ;; k" := (bind m (fun x => k))
  (at level 61, m at next level, right associativity) : py_scope.
Notation "' p <- m ;; k" := (bind m (fun p => k))
  (at level 61, p pattern, m at next level, right associativity) : py_scope.
Local Open Scope py_scope.

(** ** The [ipaddress] module, IPv4 *)

Module ipaddress.

(** [IPv4Address._ALL_ONES] and [_max_prefixlen]. *)
Definition ALL_ONES : Z := 2 ^ 32 - 1.
Definition max_prefixlen : Z := 32.

(** An [IPv4Network] object: the integer of its network address and its
    prefix length; netmask, hostmask and broadcast address derive from
    them. *)
Record IPv4Network : Type := mkNet { network_address : Z; prefixlen : Z }.

(** [_ip_int_from_prefix]. *)
Definition ip_int_from_prefix (plen : Z) : Z :=
  Z.lxor ALL_ONES (Z.shiftr ALL_ONES plen).

Definition netmask (n : IPv4Network) : Z := ip_int_from_prefix (prefixlen n).
Definition hostmask (n : IPv4Network) : Z := Z.lxor (netmask n) ALL_ONES.
Definition broadcast_address (n : IPv4Network) : Z :=
  Z.lor (network_address n) (hostmask n).

(** [IPv4Network((addr, plen))] with [strict=True]. *)
Definition new_IPv4Network (addr plen : Z) : result IPv4Network :=
  if (addr <? 0) || (ALL_ONES <? addr) then
    Raise (AddressValueError "address out of range for IPv4")
  else if (plen <? 0) || (max_prefixlen <? plen) then
    Raise (NetmaskValueError "not a valid netmask")
  else if negb (Z.land addr (ip_int_from_prefix plen) =? addr) then
    Raise (ValueError "has host bits set")
  else Ok (mkNet addr plen).

(** The text ["o1.o2.o3.o4/plen"], every number in plain decimal: the
    strings [ip_network] is given here. *)
Record prefix_text : Type :=
  mkText { o1 : N; o2 : N; o3 : N; o4 : N; plen_text : N }.

Definition dotted (a b c d : Z) : Z := ((a * 256 + b) * 256 + c) * 256 + d.

(** [ip_network(text)]: the IPv4 parse; an octet above 255 or a prefix
    length above 32 raises [AddressValueError] or [NetmaskValueError]
    there, the IPv6 parse that follows rejects a text without a colon,
    and [ip_network] raises its own [ValueError]. *)
Definition ip_network (t : prefix_text) : result IPv4Network :=
  if (255 <? o1 t)%N || (255 <? o2 t)%N || (255 <? o3 t)%N || (255 <? o4 t)%N
     || (32 <? plen_text t)%N
  then Raise (ValueError "does not appear to be an IPv4 or IPv6 network")
  else new_IPv4Network
         (dotted (Z.of_N (o1 t)) (Z.of_N (o2 t)) (Z.of_N (o3 t)) (Z.of_N (o4 t)))
         (Z.of_N (plen_text t)).

(** [IPv4Network.subnets(new_prefix=...)]. *)
Definition subnets (self : IPv4Network) (new_prefix : Z)
  : result (list IPv4Network) :=
  if prefixlen self =? max_prefixlen then Ok [self]
  else if new_prefix <? prefixlen self then
    Raise (ValueError "new prefix must be longer")
  else
    let prefixlen_diff := new_prefix - prefixlen self in
    let new_prefixlen := prefixlen self + prefixlen_diff in
    if max_prefixlen <? new_prefixlen then
      Raise (ValueError "prefix length diff is invalid for netblock")
    else
      let start := network_address self in
      let stop := broadcast_address self + 1 in
      let step := Z.shiftr (hostmask self + 1) prefixlen_diff in
      addrs <- range start stop step ;;
      mapM (fun new_addr => new_IPv4Network new_addr new_prefixlen) addrs.

(** [IPv4Network.hosts()]: both addresses of a /31, the single address of
    a /32, otherwise everything between network and broadcast address. *)
Definition hosts (self : IPv4Network) : result (list Z) :=
  if prefixlen self =? max_prefixlen - 1 then
    range (network_address self) (broadcast_address self + 1) 1
  else if prefixlen self =? max_prefixlen then
    Ok [network_address self]
  else
    range (network_address self + 1) (broadcast_address self) 1.

(** [str(IPv4Address(a))]: the four bytes, most significant first. *)
Definition str_IPv4Address (a : Z) : string :=
  join "." (map (fun k => str_int (Z.land (Z.shiftr a k) 255)) [24; 16; 8; 0]).

(** [a in n] for an address [a]. *)
Definition contains (n : IPv4Network) (a : Z) : bool :=
  (network_address n <=? a) && (a <=? broadcast_address n).

(** [n.overlaps(m)]. *)
Definition overlaps (n m : IPv4Network) : bool :=
  contains m (network_address n) || contains m (broadcast_address n)
  || contains n (network_address m) || contains n (broadcast_address m).

End ipaddress.

Import ipaddress.

(** ** [subprocess] *)

Module subprocess.

(** How a standard stream of the child is set up: left alone (the default,
    [None]) or captured through a pipe. *)
Inductive stream_arg : Type := Inherited | PIPE.

(** What a child process did: the bytes it wrote to its two output streams
    and its exit code. *)
Record child_run : Type :=
  mkRun { wrote_stdout : string; wrote_stderr : string; returncode : Z }.

(** A started process: [Popen(args, stdout=..., stderr=...)]. *)
Record Popen : Type :=
  mkPopen { args : list string; stdout_arg : stream_arg;
            stderr_arg : stream_arg; child : child_run }.

(** [process.communicate()]: the pair [(stdout_data, stderr_data)]; a
    stream that was not piped gives [None]. *)
Definition communicate (p : Popen) : option string * option string :=
  (match stdout_arg p with
   | PIPE => Some (wrote_stdout (child p))
   | Inherited => None
   end,
   match stderr_arg p with
   | PIPE => Some (wrote_stderr (child p))
   | Inherited => None
   end).

(** Truth value of [None] or a bytes object in an [if]. *)
Definition truthy (data : option string) : bool :=
  match data with
  | None => false
  | Some s => negb (String.eqb s "")
  end.

End subprocess.

Import subprocess.

(** ** [src/main.py] *)

(** The subnet pool and the router configurations. *)
Definition pool : Type := list IPv4Network.
Definition rtr_dict : Type := dict (list string).

(** Computations over the pool: the list object is shared with the caller,
    so the pool comes back whether or not an exception was raised. *)
Definition St (A : Type) : Type := pool -> result A * pool.

Definition ret {A : Type} (a : A) : St A := fun p => (Ok a, p).

Definition lift {A : Type} (r : result A) : St A := fun p => (r, p).

Definition bindS {A B : Type} (m : St A) (k : A -> St B) : St B :=
  fun p => match m p with
           | (Ok a, p') => k a p'
           | (Raise e, p') => (Raise e, p')
           end.

(** [subnets.pop()]. *)
Definition pop : St IPv4Network :=
  fun p => match list_pop p with
           | Ok (s, p') => (Ok s, p')
           | Raise e => (Raise e, p)
           end.

Notation "x <~ m ;; k" := (bindS m (fun x => k))
  (at level 61, m at next level, right associativity) : py_scope.
Notation "' p <~ m ;; k" := (bindS m (fun p => k))
  (at level 61, p pattern, m at next level, right associativity) : py_scope.

(** [generate_31_subnets(parent_prefix)]. *)
Definition generate_31_subnets (parent_prefix : prefix_text)
  : result (list IPv4Network) :=
  network <- ip_network parent_prefix ;;
  if 31 <=? prefixlen network then
    Raise (ValueError
             ("New prefix length /31 should be larger than parent prefix length "
              ++ str_int (prefixlen network) ++ "."))
  else subnets network 31.

(** [d[k].method(...)]: look the list up, mutate it in place. *)
Definition dict_modify (k : string) (f : list string -> list string)
  (d : rtr_dict) : result rtr_dict :=
  l <- dict_getitem k d ;; Ok (dict_set k (f l) d).

(** [if router not in rtr_configs: rtr_configs[router] = []]. *)
Definition ensure_router (router : string) (rtr_configs : rtr_dict) : rtr_dict :=
  if negb (dict_mem router rtr_configs) then dict_set router [] rtr_configs
  else rtr_configs.

Definition interface_line (link : string) : string :=
  ("interface " ++ link ++ nl)%string.

Definition address_line (ip prefix : Z) : string :=
  (" ip address " ++ str_IPv4Address ip ++ "/" ++ str_int prefix ++ nl)%string.

(** The four names a link gives: [a_router, a_link] and
    [b_router, b_link]. *)
Record endpoints : Type :=
  mkEnds { a_router : string; a_link : string;
           b_router : string; b_link : string }.

(** The first four statements of the loop body: both endpoint strings are
    fetched, then both are split at the colon. *)
Definition link_endpoints (link : pyval) : result endpoints :=
  a_end <- (e <- py_getitem_str link "endpoints" ;; py_getitem_int e 0) ;;
  b_end <- (e <- py_getitem_str link "endpoints" ;; py_getitem_int e 1) ;;
  '(a_router, a_link) <- (parts <- py_split a_end ":" ;; unpack2 parts) ;;
  '(b_router, b_link) <- (parts <- py_split b_end ":" ;; unpack2 parts) ;;
  Ok (mkEnds a_router a_link b_router b_link).

(** The body of the loop over the links. *)
Definition link_body (link : pyval) (rtr_configs : rtr_dict) : St rtr_dict :=
  ends <~ lift (link_endpoints link) ;;
  s <~ pop ;;
  '(a_ip, b_ip) <~ lift (h <- hosts s ;; unpack2 h) ;;
  let prefix := prefixlen s in
  let rtr_configs := ensure_router (a_router ends) rtr_configs in
  rtr_configs <~ lift (dict_modify (a_router ends)
                         (list_append (interface_line (a_link ends))) rtr_configs) ;;
  rtr_configs <~ lift (dict_modify (a_router ends)
                         (list_append (address_line a_ip prefix)) rtr_configs) ;;
  let rtr_configs := ensure_router (b_router ends) rtr_configs in
  rtr_configs <~ lift (dict_modify (b_router ends)
                         (list_append (interface_line (b_link ends))) rtr_configs) ;;
  rtr_configs <~ lift (dict_modify (b_router ends)
                         (list_append (address_line b_ip prefix)) rtr_configs) ;;
  ret rtr_configs.

(** [for link in links: ...]. *)
Fixpoint for_links (links : list pyval) (rtr_configs : rtr_dict) : St rtr_dict :=
  match links with
  | [] => ret rtr_configs
  | link :: rest =>
      rtr_configs <~ link_body link rtr_configs ;; for_links rest rtr_configs
  end.

(** [generate_frrouter_addressing_info(subnets, parsed_data)]: the value
    returned or the exception raised, and the pool as the call leaves it. *)
Definition generate_frrouter_addressing_info (subnets : pool) (parsed_data : pyval)
  : result rtr_dict * pool :=
  (let rtr_configs : rtr_dict := [] in
   has_links <~ lift (py_contains "links" parsed_data) ;;
   if has_links : bool then
     links <~ lift (py_getitem_str parsed_data "links") ;;
     items <~ lift (py_iter links) ;;
     for_links items rtr_configs
   else
     lift (Raise (ValueError "No 'links' section found in the YAML data.")))
    subnets.

(** [write_configuration_to_file(filename, lines)]: the text the file holds
    afterwards. *)
Definition write_configuration_to_file (lines : list string) : string :=
  String.concat "" lines.

Fixpoint foldM {A S : Type} (f : S -> A -> result S) (l : list A) (s : S)
  : result S :=
  match l with
  | [] => Ok s
  | x :: xs => s' <- f s x ;; foldM f xs s'
  end.

(** The parent prefix ['10.254.0.0/24'] of [main]. *)
Definition parent_prefix : prefix_text := mkText 10 254 0 0 24.

(** Body of [for router in rtr_configs] in [main]: the base lines. *)
Definition add_base_configs (rtr_configs : rtr_dict) (router : string)
  : result rtr_dict :=
  rc <- dict_modify router (list_insert 0 ("frr defaults traditional " ++ nl)%string) rtr_configs ;;
  rc <- dict_modify router (list_insert 0 ("hostname " ++ router ++ " " ++ nl)%string) rc ;;
  rc <- dict_modify router (list_insert 0 ("no ipv6 forwarding " ++ nl)%string) rc ;;
  rc <- dict_modify router (list_append ("router ospf " ++ nl)%string) rc ;;
  rc <- dict_modify router (list_append (" network 10.254.0.0/16 area 0.0.0.0 " ++ nl)%string) rc ;;
  dict_modify router (list_append ("line vty " ++ nl)%string) rc.

(** Body of [for router, config in ...['bgp_config'].items()]. *)
Definition append_bgp_config (rtr_configs : rtr_dict) (item : string * string)
  : result rtr_dict :=
  let '(router, config) := item in
  dict_modify router (list_append config) rtr_configs.

(** The two assembly loops of [main], from the addressing information and
    the [bgp_config] mapping of the troubleshooting scenario (router
    identifier to configuration text) to the final configurations. *)
Definition assemble_configs (rtr_configs : rtr_dict) (bgp_config : dict string)
  : result rtr_dict :=
  rc <- foldM add_base_configs (dict_keys rtr_configs) rtr_configs ;;
  foldM append_bgp_config bgp_config rc.

(** The files written by [for router, config in rtr_configs.items()]. *)
Definition config_files (rtr_configs : rtr_dict) : list (string * string) :=
  map (fun rc => ((fst rc ++ "_frr.conf")%string,
                  write_configuration_to_file (snd rc))) rtr_configs.

(** The deployment step of [main]: run the tool with only its standard
    output piped, raise when [error] is true.  ([command.split()] splits
    at white space, here the one blank; the message shows the bytes
    without Python's quoting.) *)
Definition deploy (tool : child_run) : result unit :=
  let command := "containerlab deploy" in
  let process := mkPopen (split_on " "%char command) PIPE Inherited tool in
  let '(output, error) := communicate process in
  if truthy error then
    Raise (ValueError
             ("Error occurred while deploying containerlab topology: "
              ++ match error with Some e => e | None => "None" end))
  else Ok tt.

(** [main], from the parsed topology on: the language-model calls are
    outside; their answers come in as [parsed_data] (stage 1, after
    [yaml.safe_load]) and [bgp_config] (the ['bgp_config'] entry of stage
    2, after [ast.literal_eval]), the deployment tool's run as [tool].  The
    result is the configuration files written, name and content; the lab
    descriptor file, the debug output and the chat of stage 4 are left
    out. *)
Definition main (parsed_data : pyval) (bgp_config : dict string)
  (tool : child_run) : result (list (string * string)) :=
  subnets <- generate_31_subnets parent_prefix ;;
  rtr_configs <- fst (generate_frrouter_addressing_info subnets parsed_data) ;;
  rtr_configs <- assemble_configs rtr_configs bgp_config ;;
  let files := config_files rtr_configs in
  _ <- deploy tool ;;
  Ok files.

(** ** Vocabulary of the statements *)

(** A well-formed network object: prefix length and address in range, no
    host bit set.  Every [IPv4Network] the library builds is one. *)
Definition valid_network (n : IPv4Network) : Prop :=
  0 <= prefixlen n <= 32 /\ 0 <= network_address n < 2 ^ 32
  /\ network_address n mod 2 ^ (32 - prefixlen n) = 0.

(** A Subnet of the pool: a well-formed /31. *)
Definition is_subnet (s : IPv4Network) : Prop :=
  valid_network s /\ prefixlen s = 31.

(** [count] consecutive /31 networks from address [a] on. *)
Definition consecutive_31 (a : Z) (count : nat) : list IPv4Network :=
  map (fun i => mkNet (a + 2 * Z.of_nat i) 31) (seq 0 count).

(** The endpoint string ["router:interface"] and a link entry of the
    topology listing two of them. *)
Definition endpoint (router iface : string) : string :=
  (router ++ ":" ++ iface)%string.

Definition link_entry (e : endpoints) : pyval :=
  PyDict [("endpoints",
           PyList [PyStr (endpoint (a_router e) (a_link e));
                   PyStr (endpoint (b_router e) (b_link e))])].

(** [s] has no occurrence of the character [c]. *)
Fixpoint avoids (c : ascii) (s : string) : bool :=
  match s with
  | EmptyString => true
  | String a rest => negb (Ascii.eqb a c) && avoids c rest
  end.

(** Router and interface names that the colon separates cleanly, and
    links made of such names. *)
Definition no_colon (s : string) : bool := avoids ":" s.

Definition well_formed (e : endpoints) : bool :=
  no_colon (a_router e) && no_colon (a_link e)
  && no_colon (b_router e) && no_colon (b_link e).

(** [d] with [lines] added at the end of [router]'s list, the list being
    created when the router is new. *)
Definition extend (router : string) (lines : list string) (d : rtr_dict)
  : rtr_dict :=
  dict_set router
    (match dict_get router d with Some l => l | None => [] end ++ lines) d.

(** The two lines of an interface fragment (interface name, address). *)
Definition interface_block (f : string * Z) : list string :=
  [interface_line (fst f); address_line (snd f) 31].

(** What a link with names [e] that is given subnet [s] adds to router
    [r]: the lower address for the first endpoint, the next one for the
    second. *)
Definition link_fragments (r : string) (e : endpoints) (s : IPv4Network)
  : list (string * Z) :=
  (if String.eqb r (a_router e) then [(a_link e, network_address s)] else [])
  ++ (if String.eqb r (b_router e) then [(b_link e, network_address s + 1)] else []).

(** The fragments of router [r] when the links are given the subnets of
    [subs] in turn. *)
Fixpoint router_fragments (r : string) (es : list endpoints)
  (subs : list IPv4Network) : list (string * Z) :=
  match es, subs with
  | e :: es', s :: subs' => link_fragments r e s ++ router_fragments r es' subs'
  | _, _ => []
  end.

(** The routers the links mention. *)
Definition mentioned (r : string) (es : list endpoints) : bool :=
  existsb (fun e => String.eqb r (a_router e) || String.eqb r (b_router e)) es.

(** The state of the router configurations after one link. *)
Definition bind_link (e : endpoints) (s : IPv4Network) (d : rtr_dict) : rtr_dict :=
  extend (b_router e)
    (interface_block (b_link e, network_address s + 1))
    (extend (a_router e) (interface_block (a_link e, network_address s)) d).

(** The three base lines and the interior-protocol block of a router. *)
Definition base_lines (router : string) : list string :=
  [("no ipv6 forwarding " ++ nl)%string;
   ("hostname " ++ router ++ " " ++ nl)%string;
   ("frr defaults traditional " ++ nl)%string].

Definition ospf_lines : list string :=
  [("router ospf " ++ nl)%string;
   (" network 10.254.0.0/16 area 0.0.0.0 " ++ nl)%string;
   ("line vty " ++ nl)%string].

(** The list a router holds, empty when the router is absent. *)
Definition lines_of (r : string) (d : rtr_dict) : list string :=
  match dict_get r d with Some l => l | None => [] end.

(** The router configurations after the links with names [es] were given
    the subnets [subs] in turn. *)
Fixpoint assign (es : list endpoints) (subs : list IPv4Network) (d : rtr_dict)
  : rtr_dict :=
  match es, subs with
  | e :: es', s :: subs' => assign es' subs' (bind_link e s d)
  | _, _ => d
  end.

(** The two host addresses of a /31. *)
Definition host_pair (s : IPv4Network) : list Z :=
  [network_address s; network_address s + 1].

(** Membership of a key in a list of keys, as a boolean. *)
Definition among (r : string) (ks : list string) : bool :=
  existsb (String.eqb r) ks.

(** The final lines of a router: base lines, its fragment lines, the
    interior-protocol block, then the exterior-protocol text if the mapping
    has one for it. *)
Definition final_config (router : string) (frags : list string)
  (bgp_text : option string) : list string :=
  base_lines router ++ frags ++ ospf_lines
  ++ match bgp_text with Some config => [config] | None => [] end.

(** The topology with the single link [["r1:eth1", "r2:eth1"]]. *)
Definition example_topology : pyval :=
  PyDict [("links",
           PyList [PyDict [("endpoints",
                            PyList [PyStr "r1:eth1"; PyStr "r2:eth1"])]])].

(** The network statement of the interior-protocol block. *)
Definition network_statement : string :=
  (" network 10.254.0.0/16 area 0.0.0.0 " ++ nl)%string.

(** Sample links: a self-loop, and two and three links over three
    routers. *)
Definition self_loop : endpoints := mkEnds "r1" "eth1" "r1" "eth2".

Definition two_links : list endpoints :=
  [mkEnds "r1" "eth1" "r2" "eth1"; mkEnds "r1" "eth2" "r3" "eth1"].

Definition three_links : list endpoints :=
  two_links ++ [mkEnds "r2" "eth2" "r3" "eth2"].

(** The byte of address [a] that starts at bit [k]. *)
Definition octet (a k : Z) : Z := Z.land (Z.shiftr a k) 255.

(** ** More of the Python runtime: [str], [repr], [dict.items], [str.lower]

    Strings are sequences of characters with code below 256. *)

(** The double quote and the backslash. *)
Definition dquote : string := String (ascii_of_nat 34) EmptyString.
Definition backslash : string := String (ascii_of_nat 92) EmptyString.

(** One lower-case hexadecimal digit. *)
Definition hex_digit (n : nat) : string :=
  match String.get n "0123456789abcdef" with
  | Some c => String c EmptyString
  | None => EmptyString
  end.

(** Characters that [repr] leaves as they are: the printable ones. *)
Definition printable (c : ascii) : bool :=
  let n := nat_of_ascii c in
  ((32 <=? n) && (n <? 127) || (161 <=? n) && negb (n =? 173))%nat.

(** [repr(s)] for a string: single quotes unless the string has a single
    quote and no double quote; the quote in use and the backslash are
    escaped, as are tab, line feed, carriage return and the characters
    that are not printable. *)
Definition repr_char (quote : ascii) (c : ascii) : string :=
  let n := nat_of_ascii c in
  if Ascii.eqb c quote || (n =? 92)%nat then (backslash ++ String c EmptyString)%string
  else if (n =? 9)%nat then (backslash ++ "t")%string
  else if (n =? 10)%nat then (backslash ++ "n")%string
  else if (n =? 13)%nat then (backslash ++ "r")%string
  else if printable c then String c EmptyString
  else (backslash ++ "x" ++ hex_digit (n / 16) ++ hex_digit (n mod 16))%string.

Definition repr_str (s : string) : string :=
  let quote :=
    if negb (avoids "'" s) && avoids (ascii_of_nat 34) s
    then ascii_of_nat 34 else "'"%char in
  (String quote EmptyString
   ++ String.concat "" (map (repr_char quote) (list_ascii_of_string s))
   ++ String quote EmptyString)%string.

(** [repr(v)]. *)
Fixpoint py_repr (v : pyval) : string :=
  match v with
  | PyNone => "None"
  | PyBool true => "True"
  | PyBool false => "False"
  | PyInt n => str_int n
  | PyStr s => repr_str s
  | PyList items => ("[" ++ join ", " (map py_repr items) ++ "]")%string
  | PyDict entries =>
      ("{" ++ join ", " (map (fun kv => match kv with
                                        | (k, x) => (repr_str k ++ ": " ++ py_repr x)%string
                                        end) entries)
           ++ "}")%string
  end.

(** [str(v)], what an f-string puts in place of [{v}]. *)
Definition py_str (v : pyval) : string :=
  match v with
  | PyStr s => s
  | _ => py_repr v
  end.

(** [v.items()]. *)
Definition py_items (v : pyval) : result (list (string * pyval)) :=
  match v with
  | PyDict d => Ok d
  | _ => Raise (AttributeError "object has no attribute 'items'")
  end.

(** [s.lower()]: the capital letters of ASCII and of Latin-1 move 32 up. *)
Definition lower_char (c : ascii) : ascii :=
  let n := nat_of_ascii c in
  if ((65 <=? n) && (n <=? 90) || (192 <=? n) && (n <=? 222) && negb (n =? 215))%nat
  then ascii_of_nat (n + 32) else c.

Fixpoint py_lower (s : string) : string :=
  match s with
  | EmptyString => EmptyString
  | String c rest => String (lower_char c) (py_lower rest)
  end.


(** ** [generate_clab_yml_config] *)

(** The inner loop of [nodes_to_yaml_string] over the attributes of one
    node. *)
Definition detail_to_yaml (yaml_str : string) (detail : string * pyval)
  : result string :=
  let '(key, value) := detail in
  match value with
  | PyList items =>
      Ok (fold_left
            (fun yaml_str item =>
               (yaml_str ++ "        - " ++ py_str item ++ nl)%string)
            items (yaml_str ++ "      " ++ key ++ ":" ++ nl)%string)
  | _ => Ok (yaml_str ++ "      " ++ key ++ ": " ++ py_str value ++ nl)%string
  end.

(** The outer loop body of [nodes_to_yaml_string]. *)
Definition node_to_yaml (yaml_str : string) (entry : string * pyval)
  : result string :=
  let '(node, details) := entry in
  let yaml_str := (yaml_str ++ "    " ++ node ++ ":" ++ nl)%string in
  attributes <- py_items details ;;
  foldM detail_to_yaml attributes yaml_str.

(** [nodes_to_yaml_string(nodes)]. *)
Definition nodes_to_yaml_string (nodes : pyval) : result string :=
  let yaml_str := ("  nodes:" ++ nl)%string in
  entries <- py_items nodes ;;
  foldM node_to_yaml entries yaml_str.

(** The loop body of [links_to_yaml_string]. *)
Definition link_to_yaml (yaml_str : string) (link : pyval) : result string :=
  listed <- py_getitem_str link "endpoints" ;;
  items <- py_iter listed ;;
  let endpoints :=
    join ", " (map (fun endpoint => (dquote ++ py_str endpoint ++ dquote)%string)
                 items) in
  Ok (yaml_str ++ "    - endpoints: [" ++ endpoints ++ "]" ++ nl)%string.

(** [links_to_yaml_string(links)]. *)
Definition links_to_yaml_string (links : pyval) : result string :=
  let yaml_str := ("  links:" ++ nl)%string in
  items <- py_iter links ;;
  foldM link_to_yaml items yaml_str.

(** [generate_clab_yml_config(data)]. *)
Definition generate_clab_yml_config (data : pyval) : result string :=
  name <- py_getitem_str data "name" ;;
  let yaml_content := ("name: " ++ py_str name ++ nl ++ nl)%string in
  let yaml_content := (yaml_content ++ "topology:" ++ nl)%string in
  topology <- py_getitem_str data "topology" ;;
  has_nodes <- py_contains "nodes" topology ;;
  yaml_content <-
    (if has_nodes : bool then
       topology <- py_getitem_str data "topology" ;;
       nodes <- py_getitem_str topology "nodes" ;;
       text <- nodes_to_yaml_string nodes ;;
       Ok (yaml_content ++ text)%string
     else Ok yaml_content) ;;
  topology <- py_getitem_str data "topology" ;;
  has_links <- py_contains "links" topology ;;
  if has_links : bool then
    topology <- py_getitem_str data "topology" ;;
    links <- py_getitem_str topology "links" ;;
    text <- links_to_yaml_string links ;;
    Ok (yaml_content ++ text)%string
  else Ok yaml_content.

(** ** The files of [main] *)

(** The files of the working directory, by name; every name is taken to
    be one that can be opened for writing. *)
Definition files : Type := dict string.



(** The entry of a router in the node map. *)
Definition node_details (router : string) : pyval :=
  PyDict [("kind", PyStr "linux");
          ("image", PyStr "frrouting/frr:v7.5.1");
          ("binds", PyList [PyStr "./daemons:/etc/frr/daemons";
                            PyStr (router ++ "_frr.conf:/etc/frr/frr.conf")])].

(** [for router, config in rtr_configs.items()]: the node map filled. *)
Definition populate_nodes (rtr_configs : rtr_dict) : dict pyval :=
  fold_left
    (fun nodes rc =>
       dict_set (fst rc) (node_details (fst rc))
         (dict_set (fst rc) (PyDict []) nodes))
    rtr_configs [].

(** [topology_data] of [main] once the nodes are in. *)
Definition topology_data (links : pyval) (rtr_configs : rtr_dict) : pyval :=
  PyDict [("name", PyStr "lab_example");
          ("topology", PyDict [("nodes", PyDict (populate_nodes rtr_configs));
                               ("links", links)])].


(** ** [start_gpt4_chat] *)

(** A chat message, [{"role": ..., "content": ...}]. *)
Record message : Type := mkMessage { role : string; content : string }.

(** How the chat ends: [break] on the word quit, or [input] finding the
    standard input used up and raising [EOFError]. *)
Inductive chat_end : Type := Quit | EndOfInput.

(** The state the chat is left in: the messages list, what was printed,
    and the input lines not read. *)
Record chat_result : Type :=
  mkChat { ended : chat_end; sent : list message; printed : string;
           unread : list string }.

Section Chat.

(** The answer of the completion service to a request carrying
    [messages]: [completion.choices[0].message.content]. *)
Variable completion : list message -> string.

(** The [while True] loop, over the lines waiting on standard input.
    [input("User: ")] prints its prompt before it reads. *)
Fixpoint chat_loop (stdin : list string) (messages : list message)
  (stdout : string) : chat_result :=
  let stdout := (stdout ++ "User: ")%string in
  match stdin with
  | [] => mkChat EndOfInput messages stdout []
  | message :: rest =>
      if String.eqb (py_lower message) "quit" then
        mkChat Quit messages stdout rest
      else
        let messages := list_append (mkMessage "user" message) messages in
        let chat_message := completion messages in
        let stdout := (stdout ++ "LLM: " ++ chat_message ++ nl)%string in
        let messages :=
          list_append (mkMessage "assistant" chat_message) messages in
        chat_loop rest messages stdout
  end.

(** [start_gpt4_chat], from its system prompt on (the prompt is an
    f-string over the three data arguments and is taken as given). *)
Definition start_gpt4_chat (prompt : string) (stdin : list string)
  : chat_result :=
  let messages := [mkMessage "system" prompt] in
  chat_loop stdin messages "".

End Chat.

(** ** The list objects behind [rtr_configs] and [ip_data]

    [ip_data = rtr_configs.copy()] makes a new dictionary whose values are
    the same list objects.  Here the list objects live in a heap and a
    dictionary holds their addresses. *)
Definition heap : Type := list (list string).
Definition ref_dict : Type := dict nat.

Definition heap_get (a : nat) (h : heap) : list string := nth a h [].

Fixpoint heap_set (a : nat) (l : list string) (h : heap) : heap :=
  match h, a with
  | [], _ => []
  | _ :: rest, O => l :: rest
  | x :: rest, S a' => x :: heap_set a' l rest
  end.

(** The dictionary of lists that a dictionary of addresses stands for. *)
Definition view (d : ref_dict) (h : heap) : rtr_dict :=
  map (fun ka => (fst ka, heap_get (snd ka) h)) d.

(** The objects of a dictionary as [generate_frrouter_addressing_info]
    returns it: one list object per router. *)
Definition allocate (rc : rtr_dict) : ref_dict * heap :=
  (combine (dict_keys rc) (seq 0 (length rc)), map snd rc).

(** [d[k].method(...)] on the list object that [d[k]] is. *)
Definition ref_modify (k : string) (f : list string -> list string)
  (d : ref_dict) (h : heap) : result heap :=
  a <- dict_getitem k d ;; Ok (heap_set a (f (heap_get a h)) h).

(** The two loop bodies of the assembly, on the objects. *)
Definition add_base_configs_shared (rtr_configs : ref_dict) (h : heap)
  (router : string) : result heap :=
  h <- ref_modify router (list_insert 0 ("frr defaults traditional " ++ nl)%string) rtr_configs h ;;
  h <- ref_modify router (list_insert 0 ("hostname " ++ router ++ " " ++ nl)%string) rtr_configs h ;;
  h <- ref_modify router (list_insert 0 ("no ipv6 forwarding " ++ nl)%string) rtr_configs h ;;
  h <- ref_modify router (list_append ("router ospf " ++ nl)%string) rtr_configs h ;;
  h <- ref_modify router (list_append (" network 10.254.0.0/16 area 0.0.0.0 " ++ nl)%string) rtr_configs h ;;
  ref_modify router (list_append ("line vty " ++ nl)%string) rtr_configs h.

Definition append_bgp_config_shared (rtr_configs : ref_dict) (h : heap)
  (item : string * string) : result heap :=
  let '(router, config) := item in
  ref_modify router (list_append config) rtr_configs h.

(** [main] from the copy to the end of the assembly: what [rtr_configs]
    and [ip_data] show afterwards, [ip_data] being what stage 4 is
    given. *)
Definition assemble_shared (rc : rtr_dict) (bgp_config : dict string)
  : result (rtr_dict * rtr_dict) :=
  let '(rtr_configs, h) := allocate rc in
  let ip_data := rtr_configs in
  h <- foldM (add_base_configs_shared rtr_configs) (dict_keys rtr_configs) h ;;
  h <- foldM (append_bgp_config_shared rtr_configs) bgp_config h ;;
  Ok (view rtr_configs h, view ip_data h).

(** ** Vocabulary of the further statements *)

(** A parent prefix text that [generate_31_subnets] can work on: octets up
    to 255, prefix length below 31, no host bit set. *)
Definition subnettable (t : prefix_text) : Prop :=
  (o1 t <= 255)%N /\ (o2 t <= 255)%N /\ (o3 t <= 255)%N /\ (o4 t <= 255)%N
  /\ (plen_text t < 31)%N
  /\ dotted (Z.of_N (o1 t)) (Z.of_N (o2 t)) (Z.of_N (o3 t)) (Z.of_N (o4 t))
     mod 2 ^ (32 - Z.of_N (plen_text t)) = 0.

(** [ks] with [r] added at the end unless it is there already. *)
Definition add_new (r : string) (ks : list string) : list string :=
  if among r ks then ks else ks ++ [r].

(** The routers of the links in the order of their first mention. *)
Definition routers_of (es : list endpoints) : list string :=
  fold_left (fun ks e => add_new (b_router e) (add_new (a_router e) ks)) es [].

(** How many endpoints of the links name router [r]. *)
Fixpoint occurrences (r : string) (es : list endpoints) : nat :=
  match es with
  | [] => 0
  | e :: es' =>
      (if String.eqb r (a_router e) then 1 else 0)
      + (if String.eqb r (b_router e) then 1 else 0)
      + occurrences r es'
  end.

(** The block of a router in the node map of the descriptor, and the line
    of a link in its link list. *)
Definition node_text (router : string) : string :=
  ("    " ++ router ++ ":" ++ nl
   ++ "      kind: linux" ++ nl
   ++ "      image: frrouting/frr:v7.5.1" ++ nl
   ++ "      binds:" ++ nl
   ++ "        - ./daemons:/etc/frr/daemons" ++ nl
   ++ "        - " ++ router ++ "_frr.conf:/etc/frr/frr.conf" ++ nl)%string.

Definition link_text (e : endpoints) : string :=
  ("    - endpoints: [" ++ dquote ++ endpoint (a_router e) (a_link e) ++ dquote
   ++ ", " ++ dquote ++ endpoint (b_router e) (b_link e) ++ dquote
   ++ "]" ++ nl)%string.

(** An input line that ends the chat. *)
Definition says_quit (line : string) : bool := String.eqb (py_lower line) "quit".

(** Addresses of a dictionary in good order: no key and no address
    twice, every address within the heap of size [n]. *)
Definition refs_ok (d : ref_dict) (n : nat) : Prop :=
  NoDup (map fst d) /\ NoDup (map snd d) /\ Forall (fun a => (a < n)%nat) (map snd d).

(** A step on the objects does what the same step on the lists does. *)
Definition sim (d : ref_dict) (n : nat) (x : result heap) (y : result rtr_dict)
  : Prop :=
  match x with
  | Ok h => length h = n /\ y = Ok (view d h)
  | Raise e => y = Raise e
  end.

(** * Properties *)

(** ** Results and lists *)

Lemma mapM_ok {A B : Type} (f : A -> result B) (g : A -> B) (l : list A) :
  (forall x, In x l -> f x = Ok (g x)) -> mapM f l = Ok (map g l).
Proof.
  induction l as [|x xs IH]; intros Hf; simpl; [reflexivity|].
  rewrite (Hf x (or_introl eq_refl)); simpl.
  rewrite IH by (intros y Hy; apply Hf; right; exact Hy).
  reflexivity.
Qed.

Lemma list_pop_snoc {A : Type} (l : list A) (x : A) :
  list_pop (l ++ [x]) = Ok (x, l).
Proof.
  unfold list_pop. rewrite rev_app_distr. simpl. now rewrite rev_involutive.
Qed.

Lemma list_pop_nil {A : Type} :
  list_pop (@nil A) = Raise (IndexError "pop from empty list").
Proof. reflexivity. Qed.

(** ** Arithmetic of the [ipaddress] model *)

Section Masks.

Variable plen : Z.
Hypothesis plen_range : 0 <= plen <= 32.

Lemma plen_cases :
  In plen (map Z.of_nat (seq 0 33)).
Proof.
  apply in_map_iff. exists (Z.to_nat plen). split; [lia|].
  apply in_seq. lia.
Qed.

Lemma ip_int_from_prefix_eq :
  ip_int_from_prefix plen = 2 ^ 32 - 2 ^ (32 - plen).
Proof.
  assert (H : forallb (fun p => ip_int_from_prefix p =? 2 ^ 32 - 2 ^ (32 - p))
                (map Z.of_nat (seq 0 33)) = true) by (vm_compute; reflexivity).
  rewrite forallb_forall in H. apply Z.eqb_eq, H, plen_cases.
Qed.

Lemma hostmask_eq (a : Z) :
  hostmask (mkNet a plen) = Z.ones (32 - plen).
Proof.
  unfold hostmask, netmask; simpl.
  assert (H : forallb (fun p => Z.lxor (ip_int_from_prefix p) ALL_ONES =? Z.ones (32 - p))
                (map Z.of_nat (seq 0 33)) = true) by (vm_compute; reflexivity).
  rewrite forallb_forall in H. apply Z.eqb_eq, H, plen_cases.
Qed.

Lemma land_netmask (a : Z) :
  0 <= a < 2 ^ 32 ->
  Z.land a (ip_int_from_prefix plen) = Z.ldiff a (Z.ones (32 - plen)).
Proof.
  intros Ha. apply Z.bits_inj'. intros i Hi.
  rewrite Z.land_spec, Z.ldiff_spec.
  unfold ip_int_from_prefix, ALL_ONES.
  change (2 ^ 32 - 1) with (Z.ones 32).
  rewrite Z.lxor_spec, Z.shiftr_spec by lia.
  rewrite !Z.testbit_ones_nonneg by lia.
  destruct (Z.ltb_spec i 32) as [Hlt|Hge].
  - f_equal. destruct (Z.ltb_spec (i + plen) 32), (Z.ltb_spec i (32 - plen));
      try reflexivity; lia.
  - assert (Hbit : Z.testbit a i = false).
    { destruct (Z.eq_dec a 0) as [->|Hnz]; [apply Z.bits_0|].
      apply Z.bits_above_log2; [lia|].
      apply Z.log2_lt_pow2; [lia|].
      apply Z.lt_le_trans with (2 ^ 32); [lia|].
      apply Z.pow_le_mono_r; lia. }
    rewrite Hbit. reflexivity.
Qed.

Lemma host_bits_clear (a : Z) :
  0 <= a < 2 ^ 32 ->
  Z.land a (ip_int_from_prefix plen) = a <-> a mod 2 ^ (32 - plen) = 0.
Proof.
  intros Ha. rewrite land_netmask by exact Ha.
  rewrite Z.ldiff_ones_r by lia.
  rewrite Z.shiftl_mul_pow2, Z.shiftr_div_pow2 by lia.
  assert (Hpos : 0 < 2 ^ (32 - plen)) by (apply Z.pow_pos_nonneg; lia).
  pose proof (Z.div_mod a (2 ^ (32 - plen)) ltac:(lia)) as Hdm.
  split; intros H; lia.
Qed.

End Masks.

Lemma new_IPv4Network_ok (a p : Z) :
  valid_network (mkNet a p) -> new_IPv4Network a p = Ok (mkNet a p).
Proof.
  intros (Hp & Ha & Hm); simpl in *. unfold new_IPv4Network, ALL_ONES, max_prefixlen.
  destruct (Z.ltb_spec a 0); [lia|].
  destruct (Z.ltb_spec (2 ^ 32 - 1) a); [lia|]. simpl.
  destruct (Z.ltb_spec p 0); [lia|].
  destruct (Z.ltb_spec 32 p); [lia|]. simpl.
  apply (host_bits_clear p Hp a Ha) in Hm. rewrite Hm, Z.eqb_refl. reflexivity.
Qed.

Lemma new_IPv4Network_inv (a p : Z) (n : IPv4Network) :
  new_IPv4Network a p = Ok n -> n = mkNet a p /\ valid_network n.
Proof.
  unfold new_IPv4Network, ALL_ONES, max_prefixlen.
  destruct (Z.ltb_spec a 0); [discriminate|].
  destruct (Z.ltb_spec (2 ^ 32 - 1) a); [discriminate|]. simpl.
  destruct (Z.ltb_spec p 0); [discriminate|].
  destruct (Z.ltb_spec 32 p); [discriminate|]. simpl.
  destruct (Z.eqb_spec (Z.land a (ip_int_from_prefix p)) a) as [E|]; [|discriminate].
  simpl. intros [= <-]. split; [reflexivity|].
  repeat split; simpl; try lia.
  apply (host_bits_clear p); [lia|lia|exact E].
Qed.

Lemma ip_network_valid (t : prefix_text) (n : IPv4Network) :
  ip_network t = Ok n -> valid_network n.
Proof.
  unfold ip_network. destruct (_ || _); [discriminate|].
  intros H. apply new_IPv4Network_inv in H. apply H.
Qed.

Section ValidNetwork.

Variable n : IPv4Network.
Hypothesis n_valid : valid_network n.

Let a := network_address n.
Let p := prefixlen n.

Lemma block_size_pos : 0 < 2 ^ (32 - p).
Proof. destruct n_valid. apply Z.pow_pos_nonneg; subst p; lia. Qed.

Lemma hostmask_valid : hostmask n = 2 ^ (32 - p) - 1.
Proof.
  destruct n_valid as (Hp & _). destruct n as [a' p']; simpl in *.
  rewrite hostmask_eq by exact Hp. rewrite Z.ones_equiv. subst p; simpl. lia.
Qed.

Lemma broadcast_address_eq : broadcast_address n = a + 2 ^ (32 - p) - 1.
Proof.
  unfold broadcast_address. rewrite hostmask_valid.
  destruct n_valid as (Hp & Ha & Hm). fold a p in Hp, Ha, Hm. fold a.
  pose proof (Z.add_lor_land a (2 ^ (32 - p) - 1)) as H.
  assert (Hl : Z.land a (2 ^ (32 - p) - 1) = 0).
  { replace (2 ^ (32 - p) - 1) with (Z.ones (32 - p)) by (rewrite Z.ones_equiv; lia).
    rewrite Z.land_ones by lia. exact Hm. }
  lia.
Qed.

Lemma block_end_le : a + 2 ^ (32 - p) <= 2 ^ 32.
Proof.
  destruct n_valid as (Hp & Ha & Hm). fold a p in Hp, Ha, Hm.
  pose proof block_size_pos as Hpos.
  assert (Hsplit : 2 ^ 32 = 2 ^ p * 2 ^ (32 - p)).
  { rewrite <- Z.pow_add_r by lia. f_equal. lia. }
  apply Z.mod_divide in Hm; [|lia]. destruct Hm as [q Hq].
  assert (q < 2 ^ p) by nia. nia.
Qed.

Lemma contains_spec (x : Z) :
  contains n x = true <-> a <= x < a + 2 ^ (32 - p).
Proof.
  unfold contains. rewrite broadcast_address_eq. fold a.
  rewrite andb_true_iff, !Z.leb_le. lia.
Qed.

End ValidNetwork.

Lemma consecutive_31_length (a : Z) (count : nat) :
  length (consecutive_31 a count) = count.
Proof. unfold consecutive_31. now rewrite length_map, length_seq. Qed.

Lemma consecutive_31_nth (a : Z) (count i : nat) (s : IPv4Network) :
  nth_error (consecutive_31 a count) i = Some s <->
  (i < count)%nat /\ s = mkNet (a + 2 * Z.of_nat i) 31.
Proof.
  unfold consecutive_31. rewrite nth_error_map, nth_error_seq.
  destruct (Nat.ltb_spec i count) as [Hi|Hi]; simpl.
  - split; [intros [= <-]; auto | intros [_ ->]; reflexivity].
  - split; [discriminate | intros [Hlt _]; lia].
Qed.

Lemma valid_31 (x : Z) :
  0 <= x < 2 ^ 32 -> x mod 2 = 0 -> valid_network (mkNet x 31).
Proof. intros Hx He. repeat split; simpl; try lia. exact He. Qed.

Lemma subnets_31 (n : IPv4Network) :
  valid_network n -> prefixlen n < 31 ->
  subnets n 31 =
    Ok (consecutive_31 (network_address n) (Z.to_nat (2 ^ (31 - prefixlen n)))).
Proof.
  intros Hv Hlt. pose proof Hv as (Hp & Ha & Hm).
  pose proof (block_end_le n Hv) as Hend.
  unfold subnets, max_prefixlen.
  destruct (Z.eqb_spec (prefixlen n) 32); [lia|].
  destruct (Z.ltb_spec 31 (prefixlen n)); [lia|].
  replace (prefixlen n + (31 - prefixlen n)) with 31 by lia.
  change (32 <? 31) with false. cbv iota.
  rewrite (broadcast_address_eq n Hv), (hostmask_valid n Hv).
  set (p := prefixlen n) in *. set (a := network_address n) in *.
  assert (Hk : 2 ^ (32 - p) = 2 * 2 ^ (31 - p)).
  { replace (32 - p) with (Z.succ (31 - p)) by lia. apply Z.pow_succ_r. lia. }
  assert (Hpos : 0 < 2 ^ (31 - p)) by (apply Z.pow_pos_nonneg; lia).
  assert (Hstep : Z.shiftr (2 ^ (32 - p) - 1 + 1) (31 - p) = 2).
  { rewrite Z.shiftr_div_pow2 by lia.
    replace (2 ^ (32 - p) - 1 + 1) with (2 * 2 ^ (31 - p)) by lia.
    apply Z.div_mul. lia. }
  rewrite Hstep. unfold range. change (2 =? 0) with false. cbv iota.
  unfold range_len. change (0 <? 2) with true. cbv iota.
  destruct (Z.ltb_spec a (a + 2 ^ (32 - p) - 1 + 1)); [|lia].
  assert (Hlen : (a + 2 ^ (32 - p) - 1 + 1 - a - 1) / 2 + 1 = 2 ^ (31 - p)).
  { replace (a + 2 ^ (32 - p) - 1 + 1 - a - 1) with (1 + (2 ^ (31 - p) - 1) * 2) by lia.
    rewrite Z.div_add by lia. change (1 / 2) with 0. lia. }
  rewrite Hlen. cbn [bind].
  unfold consecutive_31.
  rewrite (mapM_ok _ (fun x => mkNet x 31)).
  - now rewrite map_map.
  - intros x Hx. apply in_map_iff in Hx. destruct Hx as (i & <- & Hi).
    apply in_seq in Hi. apply new_IPv4Network_ok, valid_31.
    + assert (Z.of_nat i < 2 ^ (31 - p)) by lia. lia.
    + apply Z.mod_divide in Hm; [|lia]. destruct Hm as [q Hq].
      fold a in Hq. rewrite Hq, Hk.
      replace (q * (2 * 2 ^ (31 - p)) + 2 * Z.of_nat i)
        with ((q * 2 ^ (31 - p) + Z.of_nat i) * 2) by lia.
      apply Z.mod_mul. lia.
Qed.

(** ** [generate_31_subnets] *)

Lemma generate_31_subnets_ok (t : prefix_text) (block : IPv4Network) :
  ip_network t = Ok block -> prefixlen block < 31 ->
  generate_31_subnets t =
    Ok (consecutive_31 (network_address block)
          (Z.to_nat (2 ^ (31 - prefixlen block)))).
Proof.
  intros Hnet Hlt. unfold generate_31_subnets. rewrite Hnet. cbn [bind].
  destruct (Z.leb_spec 31 (prefixlen block)); [lia|].
  apply subnets_31; [eapply ip_network_valid; eassumption | exact Hlt].
Qed.

Section Consecutive.

Variable block : IPv4Network.
Hypothesis block_valid : valid_network block.
Hypothesis block_wide : prefixlen block < 31.

Let a := network_address block.
Let p := prefixlen block.
Let count := Z.to_nat (2 ^ (31 - p)).

Lemma count_eq : Z.of_nat count = 2 ^ (31 - p).
Proof.
  destruct block_valid as (Hp & _). fold p in Hp.
  assert (0 < 2 ^ (31 - p)) by (apply Z.pow_pos_nonneg; subst p; lia).
  subst count. lia.
Qed.

Lemma block_size_double : 2 ^ (32 - p) = 2 * Z.of_nat count.
Proof.
  destruct block_valid as (Hp & _). fold p in Hp.
  rewrite count_eq. replace (32 - p) with (Z.succ (31 - p)) by lia.
  apply Z.pow_succ_r. subst p; lia.
Qed.

Lemma block_address_even : a mod 2 = 0.
Proof.
  destruct block_valid as (Hp & Ha & Hm). fold a p in Hp, Ha, Hm.
  pose proof (block_size_pos block block_valid) as Hpos. fold p in Hpos.
  apply Z.mod_divide in Hm; [|lia]. destruct Hm as [q Hq].
  rewrite Hq, block_size_double.
  replace (q * (2 * Z.of_nat count)) with (q * Z.of_nat count * 2) by lia.
  apply Z.mod_mul. lia.
Qed.

Lemma member_valid (i : nat) :
  (i < count)%nat -> valid_network (mkNet (a + 2 * Z.of_nat i) 31).
Proof.
  intros Hi. destruct block_valid as (Hp & Ha & Hm). fold a p in Hp, Ha, Hm.
  pose proof (block_end_le block block_valid) as Hend. fold a p in Hend.
  pose proof block_size_double. pose proof block_address_even as He.
  apply valid_31; [lia|].
  replace (a + 2 * Z.of_nat i) with (a + Z.of_nat i * 2) by lia.
  rewrite Z.mod_add by lia. exact He.
Qed.

Lemma member_contains (i : nat) (x : Z) :
  (i < count)%nat ->
  contains (mkNet (a + 2 * Z.of_nat i) 31) x = true <->
  a + 2 * Z.of_nat i <= x < a + 2 * Z.of_nat i + 2.
Proof.
  intros Hi. rewrite (contains_spec _ (member_valid i Hi)). simpl. lia.
Qed.

Lemma member_broadcast (i : nat) :
  (i < count)%nat ->
  broadcast_address (mkNet (a + 2 * Z.of_nat i) 31) = a + 2 * Z.of_nat i + 1.
Proof.
  intros Hi. rewrite (broadcast_address_eq _ (member_valid i Hi)). simpl. lia.
Qed.

Lemma members_disjoint (i j : nat) :
  (i < j)%nat -> (j < count)%nat ->
  overlaps (mkNet (a + 2 * Z.of_nat i) 31) (mkNet (a + 2 * Z.of_nat j) 31) = false.
Proof.
  intros Hij Hj. assert (Hi : (i < count)%nat) by lia.
  unfold overlaps. rewrite !member_broadcast by assumption. cbn [network_address].
  repeat match goal with
         | |- context [contains ?s ?x] =>
             let E := fresh "E" in
             destruct (contains s x) eqn:E;
             [apply member_contains in E; [lia | assumption] | clear E]
         end.
  reflexivity.
Qed.

Lemma members_cover (x : Z) :
  contains block x = true <->
  exists s, In s (consecutive_31 a count) /\ contains s x = true.
Proof.
  rewrite (contains_spec _ block_valid). fold a p.
  pose proof block_size_double as Hsz. split.
  - intros Hx. set (i := Z.to_nat ((x - a) / 2)).
    pose proof (Z.div_mod (x - a) 2 ltac:(lia)) as Hdm.
    pose proof (Z.mod_pos_bound (x - a) 2 ltac:(lia)) as Hmod.
    assert (Hq : 0 <= (x - a) / 2) by (apply Z.div_pos; lia).
    assert (Hi : (i < count)%nat) by (subst i; lia).
    exists (mkNet (a + 2 * Z.of_nat i) 31). split.
    + apply nth_error_In with i. apply consecutive_31_nth. auto.
    + apply member_contains; [exact Hi|]. subst i. lia.
  - intros (s & Hin & Hc). apply In_nth_error in Hin. destruct Hin as [i Hi].
    apply consecutive_31_nth in Hi. destruct Hi as [Hi ->].
    apply member_contains in Hc; [lia | exact Hi].
Qed.

End Consecutive.

(** C1.  For an IPv4 block with prefix length below 31,
    [generate_31_subnets] returns 2^(31-p) networks, all /31, in strictly
    increasing address order, pairwise non-overlapping, each starting right
    after the broadcast address of the one before, and an address lies in
    the block exactly when it lies in one of them. *)
Theorem generate_31_subnets_partition (t : prefix_text) (block : IPv4Network) :
  ip_network t = Ok block ->
  prefixlen block < 31 ->
  exists l,
    generate_31_subnets t = Ok l
    /\ Z.of_nat (length l) = 2 ^ (31 - prefixlen block)
    /\ (forall s, In s l -> prefixlen s = 31)
    /\ (forall i j si sj,
           nth_error l i = Some si -> nth_error l j = Some sj -> (i < j)%nat ->
           network_address si < network_address sj /\ overlaps si sj = false)
    /\ (forall i si sj,
           nth_error l i = Some si -> nth_error l (S i) = Some sj ->
           network_address sj = broadcast_address si + 1)
    /\ (forall x,
           contains block x = true <-> exists s, In s l /\ contains s x = true).
Proof.
  intros Hnet Hlt. pose proof (ip_network_valid _ _ Hnet) as Hv.
  eexists. split; [apply generate_31_subnets_ok; eassumption|].
  split; [|split; [|split; [|split]]].
  - rewrite consecutive_31_length. apply count_eq; assumption.
  - intros s Hin. apply In_nth_error in Hin. destruct Hin as [i Hi].
    apply consecutive_31_nth in Hi. destruct Hi as [_ ->]. reflexivity.
  - intros i j si sj Hi Hj Hij.
    apply consecutive_31_nth in Hi. apply consecutive_31_nth in Hj.
    destruct Hi as [_ ->], Hj as [Hj ->]. split.
    + cbn [network_address]. lia.
    + apply members_disjoint; assumption.
  - intros i si sj Hi Hj.
    apply consecutive_31_nth in Hi. apply consecutive_31_nth in Hj.
    destruct Hi as [Hi ->], Hj as [Hj ->].
    rewrite member_broadcast by assumption. cbn [network_address]. lia.
  - intros x. apply members_cover; assumption.
Qed.

Lemma generate_31_subnets_partition_witness :
  ip_network parent_prefix = Ok (mkNet (dotted 10 254 0 0) 24)
  /\ prefixlen (mkNet (dotted 10 254 0 0) 24) < 31
  /\ exists l,
      generate_31_subnets parent_prefix = Ok l
      /\ Z.of_nat (length l) = 2 ^ (31 - 24).
Proof.
  assert (Hnet : ip_network parent_prefix = Ok (mkNet (dotted 10 254 0 0) 24))
    by reflexivity.
  assert (Hlt : prefixlen (mkNet (dotted 10 254 0 0) 24) < 31) by (simpl; lia).
  split; [exact Hnet|]. split; [exact Hlt|].
  destruct (generate_31_subnets_partition _ _ Hnet Hlt) as (l & Hl & Hlen & _).
  exists l. split; [exact Hl | exact Hlen].
Defined.

(** ** Dictionaries *)

Section Dict.

Context {V : Type}.
Implicit Types (d : dict V) (k : string) (v : V).

Lemma dict_get_set_same k v d : dict_get k (dict_set k v d) = Some v.
Proof.
  induction d as [|[k' v'] d IH]; simpl.
  - now rewrite String.eqb_refl.
  - destruct (String.eqb_spec k k') as [->|Hne]; simpl.
    + now rewrite String.eqb_refl.
    + destruct (String.eqb_spec k k'); [contradiction|exact IH].
Qed.

Lemma dict_get_set_other k k' v d :
  k <> k' -> dict_get k (dict_set k' v d) = dict_get k d.
Proof.
  intros Hne. induction d as [|[k0 v0] d IH]; simpl.
  - destruct (String.eqb_spec k k'); [contradiction|reflexivity].
  - destruct (String.eqb_spec k' k0) as [->|Hne0]; simpl.
    + destruct (String.eqb_spec k k0); [contradiction|reflexivity].
    + destruct (String.eqb_spec k k0); [reflexivity|exact IH].
Qed.

Lemma dict_set_set k v1 v2 d :
  dict_set k v2 (dict_set k v1 d) = dict_set k v2 d.
Proof.
  induction d as [|[k' v'] d IH]; simpl.
  - now rewrite String.eqb_refl.
  - destruct (String.eqb_spec k k') as [->|Hne]; simpl.
    + now rewrite String.eqb_refl.
    + destruct (String.eqb_spec k k'); [contradiction|]. now rewrite IH.
Qed.

Lemma dict_get_none k d : dict_get k d = None <-> ~ In k (dict_keys d).
Proof.
  induction d as [|[k' v'] d IH]; simpl.
  - tauto.
  - destruct (String.eqb_spec k k') as [->|Hne].
    + split; [discriminate|]. intros H. exfalso. apply H. now left.
    + rewrite IH. split; [intros H [E|Hin]; [congruence|auto] | auto].
Qed.

Lemma dict_get_some_in k v d : dict_get k d = Some v -> In k (dict_keys d).
Proof.
  intros H. destruct (in_dec string_dec k (dict_keys d)) as [Hin|Hnin];
    [exact Hin|]. apply dict_get_none in Hnin. congruence.
Qed.

Lemma dict_in_get k d : In k (dict_keys d) -> exists v, dict_get k d = Some v.
Proof.
  intros Hin. destruct (dict_get k d) as [v|] eqn:E; [eauto|].
  apply dict_get_none in E. contradiction.
Qed.

Lemma dict_keys_set_present k v d :
  In k (dict_keys d) -> dict_keys (dict_set k v d) = dict_keys d.
Proof.
  induction d as [|[k' v'] d IH]; simpl; [tauto|].
  intros Hin. destruct (String.eqb_spec k k') as [->|Hne]; simpl; [reflexivity|].
  f_equal. apply IH. destruct Hin; [congruence|assumption].
Qed.

Lemma dict_keys_set_absent k v d :
  ~ In k (dict_keys d) -> dict_keys (dict_set k v d) = dict_keys d ++ [k].
Proof.
  induction d as [|[k' v'] d IH]; simpl; [reflexivity|].
  intros Hnin. destruct (String.eqb_spec k k') as [->|Hne]; simpl; [tauto|].
  f_equal. apply IH. tauto.
Qed.

Lemma dict_keys_set_nodup k v d :
  NoDup (dict_keys d) -> NoDup (dict_keys (dict_set k v d)).
Proof.
  intros Hnd. destruct (in_dec string_dec k (dict_keys d)) as [Hin|Hnin].
  - now rewrite dict_keys_set_present.
  - rewrite dict_keys_set_absent by assumption.
    apply NoDup_app; [exact Hnd | repeat constructor; intros [] |].
    intros x Hx [<-|[]]. contradiction.
Qed.

Lemma dict_mem_in k d : dict_mem k d = true <-> In k (dict_keys d).
Proof.
  unfold dict_mem. destruct (dict_get k d) as [v|] eqn:E.
  - split; [intros _; eapply dict_get_some_in; eassumption | reflexivity].
  - apply dict_get_none in E. split; [discriminate | contradiction].
Qed.

End Dict.

(** ** The loop body *)

Lemma hosts_subnet (s : IPv4Network) :
  is_subnet s -> hosts s = Ok [network_address s; network_address s + 1].
Proof.
  intros [Hv H31]. unfold hosts, max_prefixlen. rewrite H31. simpl (31 =? 32 - 1).
  cbv iota. rewrite (broadcast_address_eq s Hv), H31.
  change (2 ^ (32 - 31)) with 2.
  unfold range, range_len. change (1 =? 0) with false. change (0 <? 1) with true.
  cbv iota.
  destruct (Z.ltb_spec (network_address s) (network_address s + 2 - 1 + 1)); [|lia].
  replace (network_address s + 2 - 1 + 1 - network_address s - 1) with 1 by lia.
  change (Z.to_nat (1 / 1 + 1)) with 2%nat. cbn [seq map].
  replace (network_address s + 1 * Z.of_nat 0) with (network_address s) by lia.
  replace (network_address s + 1 * Z.of_nat 1) with (network_address s + 1) by lia.
  reflexivity.
Qed.

Lemma ensure_append_twice (r x y : string) (d : rtr_dict) :
  (d1 <- dict_modify r (list_append x) (ensure_router r d) ;;
   dict_modify r (list_append y) d1)
  = Ok (extend r [x; y] d).
Proof.
  unfold extend, ensure_router, dict_modify, dict_getitem, dict_mem, list_append.
  destruct (dict_get r d) as [l|] eqn:E; cbn [negb].
  - rewrite E. cbn [bind]. rewrite dict_get_set_same. cbn [bind].
    now rewrite dict_set_set, <- app_assoc.
  - rewrite dict_get_set_same. cbn [bind]. rewrite dict_get_set_same. cbn [bind].
    now rewrite !dict_set_set.
Qed.

Lemma link_body_ok (link : pyval) (e : endpoints) (s : IPv4Network)
  (rc : rtr_dict) (p : pool) :
  link_endpoints link = Ok e -> is_subnet s ->
  link_body link rc (p ++ [s]) = (Ok (bind_link e s rc), p).
Proof.
  intros He Hs. unfold link_body, bindS, lift, pop, ret.
  rewrite He, list_pop_snoc, (hosts_subnet s Hs). cbn [bind unpack2].
  destruct Hs as [_ H31]. rewrite H31.
  pose proof (ensure_append_twice (a_router e) (interface_line (a_link e))
                (address_line (network_address s) 31) rc) as Ha.
  destruct (dict_modify (a_router e) (list_append (interface_line (a_link e)))
              (ensure_router (a_router e) rc)) as [d1|] eqn:E1; [|discriminate].
  cbn [bind] in Ha. rewrite Ha.
  pose proof (ensure_append_twice (b_router e) (interface_line (b_link e))
                (address_line (network_address s + 1) 31)
                (extend (a_router e) [interface_line (a_link e);
                                      address_line (network_address s) 31] rc)) as Hb.
  destruct (dict_modify (b_router e) (list_append (interface_line (b_link e))) _)
    as [d2|] eqn:E2; [|discriminate].
  cbn [bind] in Hb. rewrite Hb. reflexivity.
Qed.

Lemma link_body_exhausted (link : pyval) (e : endpoints) (rc : rtr_dict) :
  link_endpoints link = Ok e ->
  link_body link rc [] = (Raise (IndexError "pop from empty list"), []).
Proof.
  intros He. unfold link_body, bindS, lift, pop. rewrite He. reflexivity.
Qed.

Lemma link_body_malformed (link : pyval) (x : exn) (rc : rtr_dict) (p : pool) :
  link_endpoints link = Raise x -> link_body link rc p = (Raise x, p).
Proof.
  intros He. unfold link_body, bindS, lift. rewrite He. reflexivity.
Qed.

(** ** The loop *)

Lemma mapM_cons_inv {A B : Type} (f : A -> result B) x xs ys :
  mapM f (x :: xs) = Ok ys ->
  exists y ys', ys = y :: ys' /\ f x = Ok y /\ mapM f xs = Ok ys'.
Proof.
  simpl. destruct (f x) as [y|]; [|discriminate]. cbn [bind].
  destruct (mapM f xs) as [ys'|]; [|discriminate]. cbn [bind].
  intros [= <-]. eauto.
Qed.

Lemma mapM_length {A B : Type} (f : A -> result B) xs ys :
  mapM f xs = Ok ys -> length ys = length xs.
Proof.
  revert ys. induction xs as [|x xs IH]; intros ys H.
  - injection H as <-. reflexivity.
  - apply mapM_cons_inv in H. destruct H as (y & ys' & -> & _ & H).
    simpl. f_equal. auto.
Qed.

Lemma mapM_app {A B : Type} (f : A -> result B) xs xs' ys ys' :
  mapM f xs = Ok ys -> mapM f xs' = Ok ys' ->
  mapM f (xs ++ xs') = Ok (ys ++ ys').
Proof.
  revert ys. induction xs as [|x xs IH]; intros ys H H'.
  - injection H as <-. exact H'.
  - apply mapM_cons_inv in H. destruct H as (y & ys0 & -> & Hx & H).
    simpl. rewrite Hx. cbn [bind]. rewrite (IH _ H H'). reflexivity.
Qed.

Lemma for_links_ok (links : list pyval) :
  forall (es : list endpoints) (subs : list IPv4Network) (rc : rtr_dict) (p : pool),
    mapM link_endpoints links = Ok es ->
    Forall is_subnet subs ->
    length subs = length es ->
    for_links links rc (p ++ rev subs) = (Ok (assign es subs rc), p).
Proof.
  induction links as [|link links IH]; intros es subs rc p Hes Hsub Hlen.
  - injection Hes as <-. destruct subs; [|discriminate].
    simpl. now rewrite app_nil_r.
  - apply mapM_cons_inv in Hes. destruct Hes as (e & es' & -> & He & Hes).
    destruct subs as [|s subs]; [discriminate|].
    inversion Hsub as [|? ? Hs Hsub']; subst.
    cbn [for_links rev assign]. unfold bindS. rewrite app_assoc.
    rewrite (link_body_ok link e s rc _ He Hs).
    apply IH; [assumption | assumption | simpl in Hlen; lia].
Qed.

Lemma for_links_app (l1 l2 : list pyval) :
  forall (rc : rtr_dict) (p : pool),
    for_links (l1 ++ l2) rc p =
    match for_links l1 rc p with
    | (Ok rc', p') => for_links l2 rc' p'
    | (Raise x, p') => (Raise x, p')
    end.
Proof.
  induction l1 as [|link l1 IH]; intros rc p; [reflexivity|].
  cbn [for_links app]. unfold bindS.
  destruct (link_body link rc p) as [[rc'|x] p']; [apply IH | reflexivity].
Qed.

(** ** What each router holds after the loop *)

Lemma dict_get_extend (r r' : string) (lines : list string) (d : rtr_dict) :
  dict_get r (extend r' lines d) =
  if String.eqb r r' then Some (lines_of r d ++ lines) else dict_get r d.
Proof.
  unfold extend, lines_of. destruct (String.eqb_spec r r') as [->|Hne].
  - apply dict_get_set_same.
  - now apply dict_get_set_other.
Qed.

Lemma lines_of_extend (r r' : string) (lines : list string) (d : rtr_dict) :
  lines_of r (extend r' lines d) =
  lines_of r d ++ (if String.eqb r r' then lines else []).
Proof.
  unfold lines_of at 1. rewrite dict_get_extend.
  destruct (String.eqb r r'); [reflexivity|].
  fold (lines_of r d). now rewrite app_nil_r.
Qed.

Lemma dict_mem_extend (r r' : string) (lines : list string) (d : rtr_dict) :
  dict_mem r (extend r' lines d) = dict_mem r d || String.eqb r r'.
Proof.
  unfold dict_mem. rewrite dict_get_extend.
  destruct (String.eqb r r'); [now rewrite orb_true_r | now rewrite orb_false_r].
Qed.

Lemma extend_keys_nodup (r : string) (lines : list string) (d : rtr_dict) :
  NoDup (dict_keys d) -> NoDup (dict_keys (extend r lines d)).
Proof. apply dict_keys_set_nodup. Qed.

Lemma lines_of_bind_link (r : string) (e : endpoints) (s : IPv4Network)
  (d : rtr_dict) :
  lines_of r (bind_link e s d) =
  lines_of r d ++ flat_map interface_block (link_fragments r e s).
Proof.
  unfold bind_link, link_fragments. rewrite !lines_of_extend, <- app_assoc.
  f_equal. rewrite flat_map_app.
  destruct (String.eqb r (a_router e)), (String.eqb r (b_router e)); reflexivity.
Qed.

Lemma dict_mem_bind_link (r : string) (e : endpoints) (s : IPv4Network)
  (d : rtr_dict) :
  dict_mem r (bind_link e s d) =
  dict_mem r d || (String.eqb r (a_router e) || String.eqb r (b_router e)).
Proof.
  unfold bind_link. rewrite !dict_mem_extend. now rewrite orb_assoc.
Qed.

Lemma assign_lines (r : string) (es : list endpoints) :
  forall (subs : list IPv4Network) (d : rtr_dict),
    length subs = length es ->
    lines_of r (assign es subs d) =
    lines_of r d ++ flat_map interface_block (router_fragments r es subs).
Proof.
  induction es as [|e es IH]; intros [|s subs] d Hlen; try discriminate; simpl.
  - now rewrite app_nil_r.
  - rewrite IH by (simpl in Hlen; lia).
    rewrite lines_of_bind_link, flat_map_app, app_assoc. reflexivity.
Qed.

Lemma assign_mem (r : string) (es : list endpoints) :
  forall (subs : list IPv4Network) (d : rtr_dict),
    length subs = length es ->
    dict_mem r (assign es subs d) = dict_mem r d || mentioned r es.
Proof.
  induction es as [|e es IH]; intros [|s subs] d Hlen; try discriminate; simpl.
  - now rewrite orb_false_r.
  - rewrite IH by (simpl in Hlen; lia).
    rewrite dict_mem_bind_link.
    destruct (dict_mem r d), (String.eqb r (a_router e)),
      (String.eqb r (b_router e)); reflexivity.
Qed.

Lemma assign_keys_nodup (es : list endpoints) :
  forall (subs : list IPv4Network) (d : rtr_dict),
    NoDup (dict_keys d) -> NoDup (dict_keys (assign es subs d)).
Proof.
  induction es as [|e es IH]; intros [|s subs] d Hd; simpl; try assumption.
  apply IH. unfold bind_link. now do 2 apply extend_keys_nodup.
Qed.

Lemma assign_get (r : string) (es : list endpoints) (subs : list IPv4Network) :
  length subs = length es ->
  dict_get r (assign es subs []) =
  if mentioned r es
  then Some (flat_map interface_block (router_fragments r es subs))
  else None.
Proof.
  intros Hlen.
  pose proof (assign_lines r es subs [] Hlen) as Hl.
  pose proof (assign_mem r es subs [] Hlen) as Hm.
  unfold lines_of, dict_mem in *. simpl in Hl, Hm.
  destruct (dict_get r (assign es subs [])) as [l|];
    destruct (mentioned r es); try discriminate; congruence.
Qed.

(** ** Endpoint strings *)

Lemma split_on_no_colon (s : string) :
  no_colon s = true -> split_on ":" s = [s].
Proof.
  unfold no_colon. induction s as [|c s IH]; simpl; [reflexivity|].
  intros H. apply andb_true_iff in H. destruct H as [Hc Hs].
  apply negb_true_iff in Hc. rewrite Hc, (IH Hs). reflexivity.
Qed.

Lemma split_on_endpoint (router iface : string) :
  no_colon router = true -> no_colon iface = true ->
  split_on ":" (endpoint router iface) = [router; iface].
Proof.
  intros Hr Hi. unfold endpoint, no_colon in *.
  induction router as [|c r IH]; simpl in *.
  - now rewrite (split_on_no_colon iface Hi).
  - apply andb_true_iff in Hr. destruct Hr as [Hc Hr].
    apply negb_true_iff in Hc. rewrite Hc, (IH Hr). reflexivity.
Qed.

Lemma link_endpoints_entry (e : endpoints) :
  well_formed e = true -> link_endpoints (link_entry e) = Ok e.
Proof.
  unfold well_formed. rewrite !andb_true_iff. intros [[[Har Hal] Hbr] Hbl].
  unfold link_endpoints, link_entry. cbn [py_getitem_str dict_getitem dict_get
    String.eqb Ascii.eqb Bool.eqb bind py_getitem_int nth_error py_split].
  rewrite !split_on_endpoint by assumption. destruct e; reflexivity.
Qed.

Lemma link_endpoints_entries (es : list endpoints) :
  forallb well_formed es = true ->
  mapM link_endpoints (map link_entry es) = Ok es.
Proof.
  induction es as [|e es IH]; simpl; [reflexivity|].
  intros H. apply andb_true_iff in H. destruct H as [He Hes].
  rewrite (link_endpoints_entry e He). cbn [bind]. rewrite (IH Hes). reflexivity.
Qed.

(** ** [generate_frrouter_addressing_info] *)

Lemma addressing_info_links (d : list (string * pyval)) (links : list pyval)
  (p : pool) :
  dict_get "links" d = Some (PyList links) ->
  generate_frrouter_addressing_info p (PyDict d) = for_links links [] p.
Proof.
  intros Hd. unfold generate_frrouter_addressing_info, bindS, lift.
  cbn [py_contains py_getitem_str]. unfold dict_mem, dict_getitem. rewrite Hd.
  cbn [py_iter]. destruct (for_links links [] p) as [[rc|x] p']; reflexivity.
Qed.

Lemma pool_split (p : pool) (n : nat) :
  (n <= length p)%nat ->
  p = firstn (length p - n) p ++ rev (firstn n (rev p)).
Proof.
  intros Hn. rewrite firstn_rev, rev_involutive. symmetry. apply firstn_skipn.
Qed.

Lemma router_fragments_firstn (r : string) (es : list endpoints) :
  forall subs,
    router_fragments r es (firstn (length es) subs) = router_fragments r es subs.
Proof.
  induction es as [|e es IH]; intros [|s subs]; simpl; try reflexivity.
  now rewrite IH.
Qed.

Lemma in_firstn {A : Type} (n : nat) (l : list A) (x : A) :
  In x (firstn n l) -> In x l.
Proof.
  intros H. rewrite <- (firstn_skipn n l). apply in_or_app. now left.
Qed.

Lemma for_links_pool (links : list pyval) (es : list endpoints) (p : pool) :
  mapM link_endpoints links = Ok es ->
  Forall is_subnet p ->
  (length es <= length p)%nat ->
  for_links links [] p =
    (Ok (assign es (firstn (length es) (rev p)) []),
     firstn (length p - length es) p).
Proof.
  intros Hes Hp Hlen.
  rewrite (pool_split p (length es) Hlen) at 1.
  apply for_links_ok; [exact Hes | |].
  - apply Forall_forall. intros s Hs. apply in_firstn in Hs.
    apply in_rev in Hs. revert s Hs. now apply Forall_forall.
  - rewrite length_firstn, length_rev. lia.
Qed.

(** C2.  The links are handled in the order given; each takes the subnet
    at the tail of what is left of the pool, so the i-th link gets the i-th
    subnet counted from the pool's end; of the subnet's two host addresses,
    which differ by one, the lower goes to the link's first endpoint and
    the higher to the second. *)
Theorem addresses_assigned_tail_first
  (d : list (string * pyval)) (links : list pyval) (es : list endpoints)
  (p : pool) :
  dict_get "links" d = Some (PyList links) ->
  mapM link_endpoints links = Ok es ->
  Forall is_subnet p ->
  (length es <= length p)%nat ->
  exists rc,
    generate_frrouter_addressing_info p (PyDict d)
    = (Ok rc, firstn (length p - length es) p)
    /\ (forall r,
           dict_get r rc =
           if mentioned r es
           then Some (flat_map interface_block (router_fragments r es (rev p)))
           else None)
    /\ (forall s, In s p ->
                  hosts s = Ok [network_address s; network_address s + 1]).
Proof.
  intros Hd Hes Hp Hlen. eexists. split; [|split].
  - rewrite (addressing_info_links d links p Hd).
    apply for_links_pool; assumption.
  - intros r. rewrite assign_get, router_fragments_firstn; [reflexivity|].
    rewrite length_firstn, length_rev. lia.
  - intros s Hs. apply hosts_subnet. revert s Hs. now apply Forall_forall.
Qed.

Lemma generate_31_subnets_narrow (t : prefix_text) (block : IPv4Network) :
  ip_network t = Ok block ->
  31 <= prefixlen block ->
  exists msg, generate_31_subnets t = Raise (ValueError msg).
Proof.
  intros Hnet Hge. unfold generate_31_subnets. rewrite Hnet. cbn [bind].
  destruct (Z.leb_spec 31 (prefixlen block)); [eauto | lia].
Qed.

(** C7.  A block whose prefix length is 31 or 32 is refused: the call
    raises the [ValueError] of the source and returns nothing. *)
Theorem generate_31_subnets_rejects (t : prefix_text) (block : IPv4Network) :
  ip_network t = Ok block ->
  31 <= prefixlen block ->
  generate_31_subnets t =
    Raise (ValueError
             ("New prefix length /31 should be larger than parent prefix length "
              ++ str_int (prefixlen block) ++ ".")).
Proof.
  intros Hnet Hge. unfold generate_31_subnets. rewrite Hnet. cbn [bind].
  destruct (Z.leb_spec 31 (prefixlen block)); [reflexivity | lia].
Qed.

Lemma generate_31_subnets_rejects_witness :
  ip_network (mkText 10 254 0 0 31) = Ok (mkNet (dotted 10 254 0 0) 31)
  /\ generate_31_subnets (mkText 10 254 0 0 31) =
     Raise (ValueError
              "New prefix length /31 should be larger than parent prefix length 31.").
Proof.
  split; [reflexivity|].
  apply (generate_31_subnets_rejects (mkText 10 254 0 0 31)
           (mkNet (dotted 10 254 0 0) 31)); [reflexivity | simpl; lia].
Defined.

Lemma generate_31_subnets_inv (t : prefix_text) (p : pool) :
  generate_31_subnets t = Ok p ->
  exists block,
    ip_network t = Ok block /\ prefixlen block < 31
    /\ p = consecutive_31 (network_address block)
             (Z.to_nat (2 ^ (31 - prefixlen block))).
Proof.
  intros H. destruct (ip_network t) as [block|x] eqn:Hnet.
  - destruct (Z.le_gt_cases 31 (prefixlen block)) as [Hge|Hlt].
    + destruct (generate_31_subnets_narrow t block Hnet Hge) as [msg Hm].
      rewrite Hm in H. discriminate.
    + exists block. split; [reflexivity|]. split; [lia|].
      rewrite (generate_31_subnets_ok t block Hnet) in H by lia. congruence.
  - unfold generate_31_subnets in H. rewrite Hnet in H. discriminate.
Qed.

Lemma generated_are_subnets (t : prefix_text) (p : pool) :
  generate_31_subnets t = Ok p -> Forall is_subnet p.
Proof.
  intros H. apply generate_31_subnets_inv in H.
  destruct H as (block & Hnet & Hlt & ->).
  pose proof (ip_network_valid _ _ Hnet) as Hv.
  apply Forall_forall. intros s Hs. apply In_nth_error in Hs.
  destruct Hs as [i Hi]. apply consecutive_31_nth in Hi. destruct Hi as [Hi ->].
  split; [|reflexivity]. apply member_valid; assumption.
Qed.

(** C6.  A topology description without a [links] section makes the call
    raise the [ValueError] of the source; nothing is taken from the pool
    and nothing is returned. *)
Theorem missing_links_rejected (d : list (string * pyval)) (p : pool) :
  dict_mem "links" d = false ->
  generate_frrouter_addressing_info p (PyDict d)
  = (Raise (ValueError "No 'links' section found in the YAML data."), p).
Proof.
  intros Hd. unfold generate_frrouter_addressing_info, bindS, lift.
  cbn [py_contains]. rewrite Hd. reflexivity.
Qed.

Lemma missing_links_rejected_witness :
  generate_frrouter_addressing_info
    [mkNet (dotted 10 254 0 0) 31]
    (PyDict [("routers", PyList [PyDict [("id", PyStr "router1")]])])
  = (Raise (ValueError "No 'links' section found in the YAML data."),
     [mkNet (dotted 10 254 0 0) 31]).
Proof.
  apply missing_links_rejected. reflexivity.
Defined.

(** ** Self-loops *)

Lemma extend_extend (r : string) (l1 l2 : list string) (d : rtr_dict) :
  extend r l2 (extend r l1 d) = extend r (l1 ++ l2) d.
Proof.
  unfold extend. rewrite dict_get_set_same, dict_set_set, app_assoc. reflexivity.
Qed.

(** C10, as the code has it.  A link whose two endpoints name the same
    router is processed like any other: the call does not fail, one subnet
    leaves the pool, and that router's list receives the block of the first
    endpoint with the lower address followed by the block of the second
    endpoint with the higher one. *)
Theorem self_loop_configures_both
  (link : pyval) (e : endpoints) (s : IPv4Network) (rc : rtr_dict) (p : pool) :
  link_endpoints link = Ok e ->
  a_router e = b_router e ->
  is_subnet s ->
  link_body link rc (p ++ [s])
  = (Ok (extend (a_router e)
           (interface_block (a_link e, network_address s)
            ++ interface_block (b_link e, network_address s + 1)) rc),
     p).
Proof.
  intros He Hsame Hs. rewrite (link_body_ok link e s rc p He Hs).
  unfold bind_link. rewrite <- Hsame, extend_extend. reflexivity.
Qed.

Lemma subnet_0_valid : is_subnet (mkNet (dotted 10 254 0 0) 31).
Proof.
  split; [|reflexivity].
  repeat split; solve [vm_compute; congruence | reflexivity].
Qed.

Lemma self_loop_configures_both_witness :
  link_body (link_entry self_loop) [] ([] ++ [mkNet (dotted 10 254 0 0) 31])
  = (Ok [("r1", [interface_line "eth1"; address_line (dotted 10 254 0 0) 31;
                 interface_line "eth2"; address_line (dotted 10 254 0 1) 31])],
     []).
Proof.
  exact (self_loop_configures_both (link_entry self_loop) self_loop
           (mkNet (dotted 10 254 0 0) 31) [] []
           eq_refl eq_refl subnet_0_valid).
Defined.

(** C10 as worded fails: were a self-loop ignored apart from the subnet it
    takes, the router configurations would come out of the loop body as
    they went in. *)
Lemma self_loop_not_ignored :
  ~ (forall (link : pyval) (e : endpoints) (s : IPv4Network) (rc : rtr_dict)
            (p : pool),
        link_endpoints link = Ok e -> a_router e = b_router e -> is_subnet s ->
        link_body link rc (p ++ [s]) = (Ok rc, p)).
Proof.
  intros H.
  specialize (H (link_entry self_loop) self_loop (mkNet (dotted 10 254 0 0) 31)
                [] [] eq_refl eq_refl subnet_0_valid).
  vm_compute in H. discriminate H.
Qed.

(** ** Address text *)

Lemma avoids_app (c : ascii) (s t : string) :
  avoids c (s ++ t) = avoids c s && avoids c t.
Proof.
  induction s as [|a s IH]; simpl; [reflexivity|].
  now rewrite IH, andb_assoc.
Qed.

Lemma app_sep_inj (c : ascii) (s s' x y : string) :
  avoids c s = true -> avoids c s' = true ->
  (s ++ String c x)%string = (s' ++ String c y)%string -> s = s' /\ x = y.
Proof.
  revert s'. induction s as [|a s IH]; intros [|a' s'] Hs Hs' E; simpl in *.
  - injection E as <-. auto.
  - injection E as <- _. rewrite Ascii.eqb_refl in Hs'. discriminate.
  - injection E as -> _. rewrite Ascii.eqb_refl in Hs. discriminate.
  - injection E as <- E. apply andb_true_iff in Hs, Hs'.
    destruct (IH s' (proj2 Hs) (proj2 Hs') E) as [-> ->]. auto.
Qed.

Lemma octet_range (a k : Z) : 0 <= octet a k < 256.
Proof.
  unfold octet. change 255 with (Z.ones 8). rewrite Z.land_ones by lia.
  apply Z.mod_pos_bound. lia.
Qed.

Lemma octet_cases (b : Z) :
  0 <= b < 256 -> In b (map Z.of_nat (seq 0 256)).
Proof.
  intros H. apply in_map_iff. exists (Z.to_nat b). split; [lia|].
  apply in_seq. lia.
Qed.

Lemma str_octet_avoids (c : ascii) (b : Z) :
  c = "."%char \/ c = "/"%char -> 0 <= b < 256 -> avoids c (str_int b) = true.
Proof.
  intros Hc Hb.
  assert (H : forallb (fun b => avoids "." (str_int b) && avoids "/" (str_int b))
                (map Z.of_nat (seq 0 256)) = true) by (vm_compute; reflexivity).
  rewrite forallb_forall in H. specialize (H b (octet_cases b Hb)).
  apply andb_true_iff in H. destruct Hc as [->| ->]; tauto.
Qed.

Lemma str_octet_inj (x y : Z) :
  0 <= x < 256 -> 0 <= y < 256 -> str_int x = str_int y -> x = y.
Proof.
  intros Hx Hy E.
  assert (H : forallb (fun x =>
                forallb (fun y =>
                  implb (String.eqb (str_int x) (str_int y)) (x =? y))
                  (map Z.of_nat (seq 0 256)))
                (map Z.of_nat (seq 0 256)) = true) by (vm_compute; reflexivity).
  rewrite forallb_forall in H. specialize (H x (octet_cases x Hx)).
  rewrite forallb_forall in H. specialize (H y (octet_cases y Hy)).
  rewrite E, String.eqb_refl in H. now apply Z.eqb_eq.
Qed.

Lemma octets_determine (a : Z) :
  0 <= a < 2 ^ 32 ->
  a = dotted (octet a 24) (octet a 16) (octet a 8) (octet a 0).
Proof.
  intros Ha. unfold dotted, octet. change 255 with (Z.ones 8).
  rewrite !Z.land_ones, !Z.shiftr_div_pow2 by lia.
  change (2 ^ 0) with 1. rewrite Z.div_1_r.
  change (2 ^ 8) with 256. change (2 ^ 16) with (256 * 256).
  change (2 ^ 24) with (256 * 256 * 256). change (2 ^ 32) with 4294967296 in Ha.
  pose proof (Z.div_mod a 256 ltac:(lia)).
  pose proof (Z.div_mod (a / 256) 256 ltac:(lia)).
  pose proof (Z.div_mod (a / 256 / 256) 256 ltac:(lia)).
  rewrite <- !Z.div_div by lia.
  assert (a / 256 / 256 / 256 < 256).
  { repeat (apply Z.div_lt_upper_bound; [lia|]). lia. }
  assert (0 <= a / 256 / 256 / 256) by (repeat apply Z.div_pos; lia).
  rewrite (Z.mod_small (a / 256 / 256 / 256) 256) by lia. lia.
Qed.

Lemma str_IPv4Address_avoids_slash (a : Z) :
  avoids "/" (str_IPv4Address a) = true.
Proof.
  unfold str_IPv4Address. cbn [map join]. fold (octet a 24) (octet a 16)
    (octet a 8) (octet a 0).
  rewrite !avoids_app, !str_octet_avoids by (auto using octet_range).
  reflexivity.
Qed.

Lemma str_IPv4Address_inj (a b : Z) :
  0 <= a < 2 ^ 32 -> 0 <= b < 2 ^ 32 ->
  str_IPv4Address a = str_IPv4Address b -> a = b.
Proof.
  intros Ha Hb E. unfold str_IPv4Address in E. cbn [map join] in E.
  fold (octet a 24) (octet a 16) (octet a 8) (octet a 0) in E.
  fold (octet b 24) (octet b 16) (octet b 8) (octet b 0) in E.
  cbn [append] in E.
  apply app_sep_inj in E; [|apply str_octet_avoids; auto using octet_range ..].
  destruct E as [E1 E].
  apply app_sep_inj in E; [|apply str_octet_avoids; auto using octet_range ..].
  destruct E as [E2 E].
  apply app_sep_inj in E; [|apply str_octet_avoids; auto using octet_range ..].
  destruct E as [E3 E4].
  apply str_octet_inj in E1, E2, E3, E4; try apply octet_range.
  rewrite (octets_determine a Ha), (octets_determine b Hb). congruence.
Qed.

Lemma string_app_inv_head (s x y : string) :
  (s ++ x)%string = (s ++ y)%string -> x = y.
Proof. induction s as [|c s IH]; simpl; [auto|]. intros [= E]. auto. Qed.

Lemma address_line_inj (a b prefix : Z) :
  0 <= a < 2 ^ 32 -> 0 <= b < 2 ^ 32 ->
  address_line a prefix = address_line b prefix -> a = b.
Proof.
  intros Ha Hb E. unfold address_line in E.
  apply string_app_inv_head in E. cbn [append] in E.
  apply app_sep_inj in E; try apply str_IPv4Address_avoids_slash.
  apply str_IPv4Address_inj; tauto.
Qed.

(** ** Exhaustion *)

Lemma consecutive_31_S (a : Z) (n : nat) :
  consecutive_31 a (S n) = consecutive_31 a n ++ [mkNet (a + 2 * Z.of_nat n) 31].
Proof. unfold consecutive_31. rewrite seq_S, map_app. reflexivity. Qed.

Lemma consecutive_31_hosts (a : Z) (n : nat) :
  flat_map host_pair (consecutive_31 a n)
  = map (fun k => a + Z.of_nat k) (seq 0 (2 * n)).
Proof.
  induction n as [|n IH]; [reflexivity|].
  rewrite consecutive_31_S, flat_map_app, IH.
  replace (2 * S n)%nat with (S (S (2 * n))) by lia.
  rewrite !seq_S, !map_app. cbn [flat_map host_pair network_address map app].
  rewrite <- app_assoc. cbn [app].
  replace (a + Z.of_nat (0 + 2 * n)) with (a + 2 * Z.of_nat n) by lia.
  replace (a + Z.of_nat (0 + S (2 * n))) with (a + 2 * Z.of_nat n + 1) by lia.
  reflexivity.
Qed.

Lemma consecutive_31_nodup (a : Z) (n : nat) : NoDup (consecutive_31 a n).
Proof.
  unfold consecutive_31. apply NoDup_map_NoDup_ForallPairs; [|apply seq_NoDup].
  intros i j _ _ H. apply (f_equal network_address) in H.
  cbn [network_address] in H. lia.
Qed.

Lemma consecutive_31_hosts_nodup (a : Z) (n : nat) :
  NoDup (flat_map host_pair (consecutive_31 a n)).
Proof.
  rewrite consecutive_31_hosts.
  apply NoDup_map_NoDup_ForallPairs; [|apply seq_NoDup].
  intros i j _ _ H. lia.
Qed.

Lemma mapM_app_inv {A B : Type} (f : A -> result B) (xs xs' : list A) :
  forall ys,
    mapM f (xs ++ xs') = Ok ys ->
    exists ys1 ys2,
      mapM f xs = Ok ys1 /\ mapM f xs' = Ok ys2 /\ ys = ys1 ++ ys2.
Proof.
  induction xs as [|x xs IH]; intros ys H.
  - exists [], ys. auto.
  - rewrite <- app_comm_cons in H. apply mapM_cons_inv in H.
    destruct H as (y & ys' & -> & Hx & H).
    destruct (IH _ H) as (ys1 & ys2 & H1 & H2 & ->).
    exists (y :: ys1), ys2. simpl. rewrite Hx, H1. auto.
Qed.

Lemma for_links_exhausted (links : list pyval) (es : list endpoints) (p : pool) :
  mapM link_endpoints links = Ok es ->
  Forall is_subnet p ->
  length links = S (length p) ->
  for_links links [] p = (Raise (IndexError "pop from empty list"), [])
  /\ for_links (firstn (length p) links) [] p
     = (Ok (assign (firstn (length p) es) (rev p) []), []).
Proof.
  intros Hes Hp Hlen.
  rewrite <- (firstn_skipn (length p) links) in Hes.
  apply mapM_app_inv in Hes. destruct Hes as (es1 & es2 & H1 & H2 & ->).
  assert (Hl1 : length es1 = length p).
  { rewrite (mapM_length _ _ _ H1), length_firstn. lia. }
  assert (Hfirst : for_links (firstn (length p) links) [] p
                   = (Ok (assign es1 (rev p) []), [])).
  { rewrite (for_links_pool _ es1 p H1 Hp) by lia.
    rewrite Hl1, Nat.sub_diag, <- (length_rev p), firstn_all. reflexivity. }
  split.
  - rewrite <- (firstn_skipn (length p) links), for_links_app, Hfirst.
    destruct (skipn (length p) links) as [|extra tl] eqn:Hsk.
    + apply (f_equal (@length pyval)) in Hsk. rewrite length_skipn in Hsk.
      simpl in Hsk. lia.
    + apply mapM_cons_inv in H2. destruct H2 as (e & es' & _ & He & _).
      cbn [for_links]. unfold bindS.
      now rewrite (link_body_exhausted extra e _ He).
  - rewrite Hfirst, <- Hl1, firstn_app, firstn_all, Nat.sub_diag.
    cbn [firstn]. now rewrite app_nil_r.
Qed.

Lemma host_pair_range (s : IPv4Network) (x : Z) :
  is_subnet s -> In x (host_pair s) -> 0 <= x < 2 ^ 32.
Proof.
  intros [Hv H31] Hx. pose proof (block_end_le s Hv) as Hend.
  rewrite H31 in Hend. change (2 ^ (32 - 31)) with 2 in Hend.
  destruct Hv as (_ & Ha & _). destruct Hx as [<-|[<-|[]]]; lia.
Qed.

Lemma address_lines_nodup (p : pool) :
  Forall is_subnet p ->
  NoDup (flat_map host_pair p) ->
  NoDup (map (fun a => address_line a 31) (flat_map host_pair p)).
Proof.
  intros Hp Hnd. apply NoDup_map_NoDup_ForallPairs; [|exact Hnd].
  intros x y Hx Hy E. apply in_flat_map in Hx, Hy.
  destruct Hx as (sx & Hsx & Hx), Hy as (sy & Hsy & Hy).
  rewrite Forall_forall in Hp.
  apply (address_line_inj x y 31); [| |exact E].
  - apply (host_pair_range sx); auto.
  - apply (host_pair_range sy); auto.
Qed.

(** C5.  With one link more than the parent block has subnets, the links
    up to the last are served, each by a subnet of its own: the i-th takes
    the i-th subnet from the pool's end and the pool is empty afterwards;
    no subnet occurs twice in the pool, no host address is handed out
    twice, and no two address lines written are the same.  The last link
    then meets the empty pool: [pop] raises [IndexError], nothing is
    returned. *)
Theorem pool_exhaustion
  (t : prefix_text) (p : pool) (d : list (string * pyval))
  (links : list pyval) (es : list endpoints) :
  generate_31_subnets t = Ok p ->
  dict_get "links" d = Some (PyList links) ->
  mapM link_endpoints links = Ok es ->
  length links = S (length p) ->
  generate_frrouter_addressing_info p (PyDict d)
  = (Raise (IndexError "pop from empty list"), [])
  /\ (exists rc,
         for_links (firstn (length p) links) [] p = (Ok rc, [])
         /\ forall r,
             dict_get r rc =
             if mentioned r (firstn (length p) es)
             then Some (flat_map interface_block
                          (router_fragments r (firstn (length p) es) (rev p)))
             else None)
  /\ NoDup p
  /\ (forall s, In s p -> hosts s = Ok (host_pair s))
  /\ NoDup (flat_map host_pair p)
  /\ NoDup (map (fun a => address_line a 31) (flat_map host_pair p)).
Proof.
  intros Hgen Hd Hes Hlen.
  pose proof (generated_are_subnets t p Hgen) as Hp.
  destruct (for_links_exhausted links es p Hes Hp Hlen) as [Hall Hfirst].
  assert (Hhosts : NoDup (flat_map host_pair p)).
  { apply generate_31_subnets_inv in Hgen. destruct Hgen as (b & _ & _ & ->).
    apply consecutive_31_hosts_nodup. }
  split; [|split; [|split; [|split; [|split]]]].
  - rewrite (addressing_info_links d links p Hd). exact Hall.
  - eexists. split; [exact Hfirst|]. intros r. apply assign_get.
    rewrite length_rev, length_firstn, (mapM_length _ _ _ Hes). lia.
  - apply generate_31_subnets_inv in Hgen. destruct Hgen as (b & _ & _ & ->).
    apply consecutive_31_nodup.
  - intros s Hs. apply hosts_subnet. revert s Hs. now apply Forall_forall.
  - exact Hhosts.
  - apply address_lines_nodup; assumption.
Qed.

(** ** Assembly of the configurations *)

Lemma dict_modify_ok (k : string) (f : list string -> list string)
  (d : rtr_dict) (l : list string) :
  dict_get k d = Some l -> dict_modify k f d = Ok (dict_set k (f l) d).
Proof. intros H. unfold dict_modify, dict_getitem. now rewrite H. Qed.

Lemma dict_modify_missing (k : string) (f : list string -> list string)
  (d : rtr_dict) :
  dict_get k d = None -> dict_modify k f d = Raise (KeyError k).
Proof. intros H. unfold dict_modify, dict_getitem. now rewrite H. Qed.

Lemma add_base_configs_ok (rc : rtr_dict) (router : string) (l : list string) :
  dict_get router rc = Some l ->
  add_base_configs rc router
  = Ok (dict_set router (base_lines router ++ l ++ ospf_lines) rc).
Proof.
  intros H. unfold add_base_configs.
  rewrite (dict_modify_ok _ _ _ _ H). cbn [bind].
  repeat (erewrite dict_modify_ok by apply dict_get_set_same;
          cbn [bind]; rewrite dict_set_set).
  unfold list_insert, list_append, base_lines, ospf_lines.
  cbn [firstn skipn app]. rewrite <- !app_assoc. reflexivity.
Qed.

Lemma append_bgp_config_ok (rc : rtr_dict) (router config : string)
  (l : list string) :
  dict_get router rc = Some l ->
  append_bgp_config rc (router, config)
  = Ok (dict_set router (l ++ [config]) rc).
Proof. intros H. unfold append_bgp_config. now rewrite (dict_modify_ok _ _ _ _ H). Qed.

Lemma among_in (r : string) (ks : list string) :
  among r ks = true <-> In r ks.
Proof.
  unfold among. rewrite existsb_exists. split.
  - intros (k & Hin & E). apply String.eqb_eq in E. now subst.
  - intros H. exists r. split; [exact H | apply String.eqb_refl].
Qed.

Lemma base_loop (ks : list string) :
  forall rc : rtr_dict,
    NoDup ks ->
    (forall k, In k ks -> In k (dict_keys rc)) ->
    exists rc',
      foldM add_base_configs ks rc = Ok rc'
      /\ dict_keys rc' = dict_keys rc
      /\ forall r,
          dict_get r rc' =
          if among r ks
          then option_map (fun l => base_lines r ++ l ++ ospf_lines) (dict_get r rc)
          else dict_get r rc.
Proof.
  induction ks as [|k ks IH]; intros rc Hnd Hin.
  - exists rc. simpl. auto.
  - inversion Hnd as [|? ? Hk Hnd']; subst.
    destruct (dict_in_get k rc (Hin k (or_introl eq_refl))) as [l Hl].
    cbn [foldM]. rewrite (add_base_configs_ok rc k l Hl). cbn [bind].
    set (rc1 := dict_set k (base_lines k ++ l ++ ospf_lines) rc).
    assert (Hkeys : dict_keys rc1 = dict_keys rc).
    { apply dict_keys_set_present. eapply dict_get_some_in; eassumption. }
    destruct (IH rc1 Hnd') as (rc' & Hrun & Hk' & Hget).
    { intros k' Hk'. rewrite Hkeys. apply Hin. now right. }
    exists rc'. split; [exact Hrun|]. split; [congruence|].
    intros r. rewrite Hget. cbn [among existsb]. fold (among r ks).
    destruct (String.eqb_spec r k) as [->|Hne]; cbn [orb].
    + destruct (among k ks) eqn:Ea; [apply among_in in Ea; contradiction|].
      subst rc1. rewrite dict_get_set_same, Hl. reflexivity.
    + subst rc1. rewrite dict_get_set_other by exact Hne. reflexivity.
Qed.

Lemma bgp_loop (bgp : dict string) :
  forall rc : rtr_dict,
    NoDup (dict_keys bgp) ->
    (forall k, In k (dict_keys bgp) -> In k (dict_keys rc)) ->
    exists rc',
      foldM append_bgp_config bgp rc = Ok rc'
      /\ dict_keys rc' = dict_keys rc
      /\ forall r,
          dict_get r rc' =
          match dict_get r bgp with
          | Some config => option_map (fun l => l ++ [config]) (dict_get r rc)
          | None => dict_get r rc
          end.
Proof.
  induction bgp as [|[k config] bgp IH]; intros rc Hnd Hin.
  - exists rc. simpl. auto.
  - simpl in Hnd. inversion Hnd as [|? ? Hk Hnd']; subst.
    destruct (dict_in_get k rc (Hin k (or_introl eq_refl))) as [l Hl].
    cbn [foldM]. rewrite (append_bgp_config_ok rc k config l Hl). cbn [bind].
    set (rc1 := dict_set k (l ++ [config]) rc).
    assert (Hkeys : dict_keys rc1 = dict_keys rc).
    { apply dict_keys_set_present. eapply dict_get_some_in; eassumption. }
    destruct (IH rc1 Hnd') as (rc' & Hrun & Hk' & Hget).
    { intros k' Hk'. rewrite Hkeys. apply Hin. now right. }
    exists rc'. split; [exact Hrun|]. split; [congruence|].
    intros r. rewrite Hget. cbn [dict_get].
    destruct (String.eqb_spec r k) as [->|Hne].
    + apply dict_get_none in Hk. rewrite Hk.
      subst rc1. rewrite dict_get_set_same, Hl. reflexivity.
    + subst rc1. rewrite dict_get_set_other by exact Hne. reflexivity.
Qed.

Lemma assemble_configs_get (rc : rtr_dict) (bgp : dict string) :
  NoDup (dict_keys rc) ->
  NoDup (dict_keys bgp) ->
  (forall k, In k (dict_keys bgp) -> In k (dict_keys rc)) ->
  exists rc',
    assemble_configs rc bgp = Ok rc'
    /\ dict_keys rc' = dict_keys rc
    /\ forall r,
        dict_get r rc' =
        option_map (fun l => final_config r l (dict_get r bgp)) (dict_get r rc).
Proof.
  intros Hrc Hbgp Hsub. unfold assemble_configs.
  destruct (base_loop (dict_keys rc) rc Hrc (fun k H => H))
    as (rc1 & Hrun1 & Hk1 & Hget1).
  rewrite Hrun1. cbn [bind].
  destruct (bgp_loop bgp rc1 Hbgp) as (rc2 & Hrun2 & Hk2 & Hget2).
  { intros k Hk. rewrite Hk1. auto. }
  exists rc2. split; [exact Hrun2|]. split; [congruence|].
  intros r. rewrite Hget2, Hget1. unfold final_config.
  destruct (dict_get r rc) as [l|] eqn:El.
  - assert (Ha : among r (dict_keys rc) = true).
    { apply among_in. eapply dict_get_some_in; eassumption. }
    rewrite Ha. cbn [option_map].
    destruct (dict_get r bgp); cbn [option_map];
      rewrite <- ?app_assoc, ?app_nil_r; reflexivity.
  - destruct (among r (dict_keys rc)), (dict_get r bgp); reflexivity.
Qed.

(** Assembly over any router dictionary: a router that the mapping has
    text for ends up with its base lines, the lines it held, the
    interior-protocol block and that text. *)
Lemma assemble_configs_order
  (rc : rtr_dict) (bgp : dict string) (r : string) (frags : list string)
  (config : string) :
  NoDup (dict_keys rc) ->
  NoDup (dict_keys bgp) ->
  (forall k, In k (dict_keys bgp) -> In k (dict_keys rc)) ->
  dict_get r rc = Some frags ->
  dict_get r bgp = Some config ->
  exists rc',
    assemble_configs rc bgp = Ok rc'
    /\ dict_get r rc' = Some (base_lines r ++ frags ++ ospf_lines ++ [config]).
Proof.
  intros Hrc Hbgp Hsub Hr Hc.
  destruct (assemble_configs_get rc bgp Hrc Hbgp Hsub) as (rc' & Hrun & _ & Hget).
  exists rc'. split; [exact Hrun|]. rewrite Hget, Hr, Hc. reflexivity.
Qed.

(** C4.  Addressing followed by assembly: for a router that the links
    mention and the mapping has text for, the final sequence is the
    no-IPv6-forwarding line, the hostname line, the routing-defaults line;
    then one block per fragment of the router, in the order the fragments
    were appended, each an interface line followed by an address line;
    then the interior-protocol block (enable line, network statement for
    10.254.0.0/16 in area 0.0.0.0, [line vty]); and last the router's
    exterior-protocol text. *)
Theorem assembled_order
  (d : list (string * pyval)) (links : list pyval) (es : list endpoints)
  (p : pool) (bgp : dict string) (r config : string) :
  dict_get "links" d = Some (PyList links) ->
  mapM link_endpoints links = Ok es ->
  Forall is_subnet p ->
  (length es <= length p)%nat ->
  NoDup (dict_keys bgp) ->
  (forall k, In k (dict_keys bgp) -> mentioned k es = true) ->
  mentioned r es = true ->
  dict_get r bgp = Some config ->
  exists rc rest final,
    generate_frrouter_addressing_info p (PyDict d) = (Ok rc, rest)
    /\ assemble_configs rc bgp = Ok final
    /\ dict_get r final =
       Some ([("no ipv6 forwarding " ++ nl)%string;
              ("hostname " ++ r ++ " " ++ nl)%string;
              ("frr defaults traditional " ++ nl)%string]
             ++ flat_map (fun f => [interface_line (fst f);
                                    address_line (snd f) 31])
                  (router_fragments r es (rev p))
             ++ [("router ospf " ++ nl)%string;
                 (" network 10.254.0.0/16 area 0.0.0.0 " ++ nl)%string;
                 ("line vty " ++ nl)%string]
             ++ [config]).
Proof.
  intros Hd Hes Hp Hlen Hbgp Hsub Hr Hc.
  set (subs := firstn (length es) (rev p)).
  assert (Hsubs : length subs = length es).
  { subst subs. rewrite length_firstn, length_rev. lia. }
  assert (Hkeys : forall k, mentioned k es = true ->
                            In k (dict_keys (assign es subs []))).
  { intros k Hk. apply dict_mem_in. rewrite assign_mem by exact Hsubs.
    rewrite Hk. apply orb_true_r. }
  destruct (assemble_configs_order (assign es subs []) bgp r
              (flat_map interface_block (router_fragments r es (rev p))) config)
    as (final & Hrun & Hget); auto.
  - apply assign_keys_nodup. constructor.
  - rewrite assign_get by exact Hsubs. rewrite Hr. subst subs.
    now rewrite router_fragments_firstn.
  - exists (assign es subs []), (firstn (length p - length es) p), final.
    split; [|split; [exact Hrun | exact Hget]].
    rewrite (addressing_info_links d links p Hd).
    apply for_links_pool; assumption.
Qed.

(** A router the mapping has no text for ends with the interior-protocol
    block. *)
Lemma assembled_without_bgp
  (rc : rtr_dict) (bgp : dict string) (r : string) (frags : list string) :
  NoDup (dict_keys rc) ->
  NoDup (dict_keys bgp) ->
  (forall k, In k (dict_keys bgp) -> In k (dict_keys rc)) ->
  dict_get r rc = Some frags ->
  dict_get r bgp = None ->
  exists rc',
    assemble_configs rc bgp = Ok rc'
    /\ dict_get r rc' = Some (base_lines r ++ frags ++ ospf_lines).
Proof.
  intros Hrc Hbgp Hsub Hr Hc.
  destruct (assemble_configs_get rc bgp Hrc Hbgp Hsub) as (rc' & Hrun & _ & Hget).
  exists rc'. split; [exact Hrun|]. rewrite Hget, Hr, Hc.
  unfold final_config. cbn [option_map]. now rewrite app_nil_r.
Qed.

Lemma base_loop_runs (ks : list string) :
  forall rc : rtr_dict,
    (forall k, In k ks -> In k (dict_keys rc)) ->
    exists rc',
      foldM add_base_configs ks rc = Ok rc' /\ dict_keys rc' = dict_keys rc.
Proof.
  induction ks as [|k ks IH]; intros rc Hin.
  - exists rc. simpl. auto.
  - destruct (dict_in_get k rc (Hin k (or_introl eq_refl))) as [l Hl].
    cbn [foldM]. rewrite (add_base_configs_ok rc k l Hl). cbn [bind].
    set (rc1 := dict_set k (base_lines k ++ l ++ ospf_lines) rc).
    assert (Hkeys : dict_keys rc1 = dict_keys rc).
    { apply dict_keys_set_present. eapply dict_get_some_in; eassumption. }
    destruct (IH rc1) as (rc' & Hrun & Hk').
    { intros k' Hk'. rewrite Hkeys. apply Hin. now right. }
    exists rc'. split; [exact Hrun | congruence].
Qed.

Lemma bgp_loop_unknown (bgp : dict string) :
  forall rc : rtr_dict,
    (exists k, In k (dict_keys bgp) /\ ~ In k (dict_keys rc)) ->
    exists k,
      In k (dict_keys bgp) /\ ~ In k (dict_keys rc)
      /\ foldM append_bgp_config bgp rc = Raise (KeyError k).
Proof.
  induction bgp as [|[k config] bgp IH]; intros rc (k0 & Hk0 & Hmiss).
  - destruct Hk0.
  - cbn [foldM]. destruct (dict_get k rc) as [l|] eqn:El.
    + rewrite (append_bgp_config_ok rc k config l El). cbn [bind].
      set (rc1 := dict_set k (l ++ [config]) rc).
      assert (Hkeys : dict_keys rc1 = dict_keys rc).
      { apply dict_keys_set_present. eapply dict_get_some_in; eassumption. }
      destruct (IH rc1) as (k1 & Hin1 & Hmiss1 & Hrun).
      { exists k0. rewrite Hkeys. split; [|exact Hmiss].
        destruct Hk0 as [E|Hin]; [|exact Hin].
        simpl in E. subst k0. exfalso. apply Hmiss.
        eapply dict_get_some_in; eassumption. }
      exists k1. rewrite Hkeys in Hmiss1. split; [now right|]. auto.
    + exists k. split; [now left|]. split; [now apply dict_get_none|].
      unfold append_bgp_config. now rewrite (dict_modify_missing _ _ _ El).
Qed.

(** C8.  When the mapping names a router that is not in the router set,
    assembly stops with a [KeyError] for such a router (the first one in
    the mapping's order); no configurations come back. *)
Theorem unknown_router_raises (rc : rtr_dict) (bgp : dict string) :
  (exists k, In k (dict_keys bgp) /\ ~ In k (dict_keys rc)) ->
  exists k,
    In k (dict_keys bgp) /\ ~ In k (dict_keys rc)
    /\ assemble_configs rc bgp = Raise (KeyError k).
Proof.
  intros Hmiss. unfold assemble_configs.
  destruct (base_loop_runs (dict_keys rc) rc (fun k H => H)) as (rc1 & Hrun & Hk).
  rewrite Hrun. cbn [bind]. rewrite <- Hk in Hmiss |- *.
  apply bgp_loop_unknown. exact Hmiss.
Qed.

(** ** Deployment *)

(** [Popen] is started with only [stdout] piped, so [communicate] gives
    [None] for the error stream and the check never fires: the deployment
    step returns normally whatever the tool wrote to its standard error and
    whatever its exit code. *)
Theorem deploy_never_raises (tool : child_run) : deploy tool = Ok tt.
Proof. reflexivity. Qed.

(** C9 fails on the code.  At a run where the tool writes to its standard
    error and exits with code 1, the deployment step returns normally
    instead of raising. *)
Example deploy_ignores_error_output :
  deploy (mkRun "" "Error: containerlab requires root privileges" 1) = Ok tt.
Proof. reflexivity. Qed.

(** ** The end-to-end example *)

Lemma final_config_network_statement (r : string) (frags : list string)
  (bgp_text : option string) :
  In network_statement (final_config r frags bgp_text).
Proof.
  unfold final_config. apply in_or_app. right. apply in_or_app. right.
  apply in_or_app. left. simpl. auto.
Qed.

(** C3, as the code has it.  For parent block 10.254.0.0/24 and the single
    link r1:eth1 - r2:eth1, one subnet leaves the pool and it is the last
    one produced, 10.254.0.254/31; r1's eth1 gets 10.254.0.254/31 and r2's
    eth1 gets 10.254.0.255/31; with exterior-protocol text for no other
    router than these two, both assembled configurations contain the
    network statement for 10.254.0.0/16. *)
Theorem example_end_to_end (bgp : dict string) :
  NoDup (dict_keys bgp) ->
  (forall k, In k (dict_keys bgp) -> k = "r1" \/ k = "r2") ->
  exists p rest rc final,
    generate_31_subnets parent_prefix = Ok p
    /\ generate_frrouter_addressing_info p example_topology = (Ok rc, rest)
    /\ p = rest ++ [mkNet (dotted 10 254 0 254) 31]
    /\ dict_get "r1" rc
       = Some [("interface eth1" ++ nl)%string;
               (" ip address 10.254.0.254/31" ++ nl)%string]
    /\ dict_get "r2" rc
       = Some [("interface eth1" ++ nl)%string;
               (" ip address 10.254.0.255/31" ++ nl)%string]
    /\ assemble_configs rc bgp = Ok final
    /\ (exists l1, dict_get "r1" final = Some l1 /\ In network_statement l1)
    /\ (exists l2, dict_get "r2" final = Some l2 /\ In network_statement l2).
Proof.
  intros Hnd Hkeys.
  set (rc := [("r1", [("interface eth1" ++ nl)%string;
                      (" ip address 10.254.0.254/31" ++ nl)%string]);
              ("r2", [("interface eth1" ++ nl)%string;
                      (" ip address 10.254.0.255/31" ++ nl)%string])] : rtr_dict).
  assert (Hrc : NoDup (dict_keys rc)).
  { repeat constructor; simpl; intuition discriminate. }
  destruct (assemble_configs_get rc bgp Hrc Hnd) as (final & Hrun & _ & Hget).
  { intros k Hk. destruct (Hkeys k Hk) as [->| ->]; simpl; auto. }
  eexists. exists (removelast (consecutive_31 (dotted 10 254 0 0) 128)), rc, final.
  split; [vm_compute; reflexivity|].
  split; [vm_compute; reflexivity|].
  split; [vm_compute; reflexivity|].
  split; [reflexivity|]. split; [reflexivity|]. split; [exact Hrun|].
  split; eexists; (split; [rewrite Hget; reflexivity|]);
    apply final_config_network_statement.
Qed.

Lemma example_end_to_end_witness :
  exists final,
    assemble_configs
      [("r1", [("interface eth1" ++ nl)%string;
               (" ip address 10.254.0.254/31" ++ nl)%string]);
       ("r2", [("interface eth1" ++ nl)%string;
               (" ip address 10.254.0.255/31" ++ nl)%string])]
      [("r1", "router bgp 65001"); ("r2", "router bgp 65002")] = Ok final
    /\ (exists l1, dict_get "r1" final = Some l1 /\ In network_statement l1).
Proof.
  assert (Hnd : NoDup (dict_keys [("r1", "router bgp 65001");
                                  ("r2", "router bgp 65002")])).
  { repeat constructor; simpl; intuition discriminate. }
  assert (Hkeys : forall k,
             In k (dict_keys [("r1", "router bgp 65001");
                              ("r2", "router bgp 65002")]) ->
             k = "r1" \/ k = "r2").
  { simpl. intuition. }
  destruct (example_end_to_end _ Hnd Hkeys)
    as (p & rest & rc & final & Hp & Hrun & Hsplit & H1 & H2 & Hasm & Hl1 & _).
  vm_compute in Hp. injection Hp as <-.
  vm_compute in Hrun. injection Hrun as <- <-.
  exists final. split; [exact Hasm | exact Hl1].
Defined.

(** C3 as worded fails: the subnet taken is not 10.254.0.0/31, and the two
    interfaces do not get 10.254.0.0/31 and 10.254.0.1/31. *)
Lemma example_not_lowest_subnet :
  ~ (exists p rest rc,
        generate_31_subnets parent_prefix = Ok p
        /\ generate_frrouter_addressing_info p example_topology = (Ok rc, rest)
        /\ p = rest ++ [mkNet (dotted 10 254 0 0) 31]
        /\ dict_get "r1" rc
           = Some [("interface eth1" ++ nl)%string;
                   (" ip address 10.254.0.0/31" ++ nl)%string]
        /\ dict_get "r2" rc
           = Some [("interface eth1" ++ nl)%string;
                   (" ip address 10.254.0.1/31" ++ nl)%string]).
Proof.
  intros (p & rest & rc & Hp & Hrun & _ & H1 & _).
  vm_compute in Hp. injection Hp as <-.
  vm_compute in Hrun. injection Hrun as <- <-.
  vm_compute in H1. discriminate H1.
Qed.

(** ** Instances *)

Lemma addresses_assigned_tail_first_witness :
  exists rc,
    generate_frrouter_addressing_info
      (consecutive_31 (dotted 10 254 0 0) 4)
      (PyDict [("links", PyList (map link_entry two_links))])
    = (Ok rc, consecutive_31 (dotted 10 254 0 0) 2)
    /\ dict_get "r1" rc
       = Some [("interface eth1" ++ nl)%string;
               (" ip address 10.254.0.6/31" ++ nl)%string;
               ("interface eth2" ++ nl)%string;
               (" ip address 10.254.0.4/31" ++ nl)%string].
Proof.
  destruct (addresses_assigned_tail_first
              [("links", PyList (map link_entry two_links))]
              (map link_entry two_links) two_links
              (consecutive_31 (dotted 10 254 0 0) 4)
              eq_refl eq_refl
              (generated_are_subnets (mkText 10 254 0 0 29) _ eq_refl)
              (le_S _ _ (le_S _ _ (le_n 2))))
    as (rc & Hrun & Hget & _).
  exists rc. split; [exact Hrun|]. rewrite Hget. reflexivity.
Defined.

Lemma pool_exhaustion_witness :
  generate_31_subnets (mkText 10 254 0 0 30)
  = Ok (consecutive_31 (dotted 10 254 0 0) 2)
  /\ generate_frrouter_addressing_info
       (consecutive_31 (dotted 10 254 0 0) 2)
       (PyDict [("links", PyList (map link_entry three_links))])
     = (Raise (IndexError "pop from empty list"), []).
Proof.
  split; [reflexivity|].
  exact (proj1 (pool_exhaustion (mkText 10 254 0 0 30)
                  (consecutive_31 (dotted 10 254 0 0) 2)
                  [("links", PyList (map link_entry three_links))]
                  (map link_entry three_links) three_links
                  eq_refl eq_refl eq_refl eq_refl)).
Defined.

Lemma assembled_order_witness :
  exists rc rest final,
    generate_frrouter_addressing_info
      (consecutive_31 (dotted 10 254 0 0) 4)
      (PyDict [("links", PyList (map link_entry two_links))])
    = (Ok rc, rest)
    /\ assemble_configs rc
         [("r1", "router bgp 65001"); ("r3", "router bgp 65003")] = Ok final
    /\ dict_get "r1" final
       = Some [("no ipv6 forwarding " ++ nl)%string;
               ("hostname r1 " ++ nl)%string;
               ("frr defaults traditional " ++ nl)%string;
               ("interface eth1" ++ nl)%string;
               (" ip address 10.254.0.6/31" ++ nl)%string;
               ("interface eth2" ++ nl)%string;
               (" ip address 10.254.0.4/31" ++ nl)%string;
               ("router ospf " ++ nl)%string;
               (" network 10.254.0.0/16 area 0.0.0.0 " ++ nl)%string;
               ("line vty " ++ nl)%string;
               "router bgp 65001"].
Proof.
  assert (Hnd : NoDup (dict_keys [("r1", "router bgp 65001");
                                  ("r3", "router bgp 65003")])).
  { repeat constructor; simpl; intuition discriminate. }
  assert (Hsub : forall k,
             In k (dict_keys [("r1", "router bgp 65001");
                              ("r3", "router bgp 65003")]) ->
             mentioned k two_links = true).
  { intros k [<-|[<-|[]]]; reflexivity. }
  exact (assembled_order
           [("links", PyList (map link_entry two_links))]
           (map link_entry two_links) two_links
           (consecutive_31 (dotted 10 254 0 0) 4)
           [("r1", "router bgp 65001"); ("r3", "router bgp 65003")]
           "r1" "router bgp 65001"
           eq_refl eq_refl
           (generated_are_subnets (mkText 10 254 0 0 29) _ eq_refl)
           (le_S _ _ (le_S _ _ (le_n 2)))
           Hnd Hsub eq_refl eq_refl).
Defined.

Lemma unknown_router_raises_witness :
  assemble_configs [("r1", [("interface eth1" ++ nl)%string])]
    [("r1", "router bgp 65001"); ("r9", "router bgp 65009")]
  = Raise (KeyError "r9").
Proof.
  destruct (unknown_router_raises
              [("r1", [("interface eth1" ++ nl)%string])]
              [("r1", "router bgp 65001"); ("r9", "router bgp 65009")])
    as (k & Hin & Hmiss & Hrun).
  - exists "r9". split; [simpl; auto|]. simpl. intros [H|[]]. discriminate H.
  - destruct Hin as [<-|[<-|[]]]; [|exact Hrun].
    exfalso. apply Hmiss. simpl. auto.
Defined.

(** ** The whole run *)

(** Whatever the deployment tool does, [main] ends the same way. *)
Lemma main_regardless_of_tool (parsed_data : pyval) (bgp_config : dict string)
  (tool tool' : child_run) :
  main parsed_data bgp_config tool = main parsed_data bgp_config tool'.
Proof. unfold main. now rewrite !deploy_never_raises. Qed.

(** The run on the example topology, with one line of exterior-protocol
    text per router and a deployment tool that fails: both files are
    written and [main] returns. *)
Example main_on_example :
  main example_topology
    [("r1", "router bgp 65001"); ("r2", "router bgp 65002")]
    (mkRun "" "Error: containerlab requires root privileges" 1)
  = Ok [("r1_frr.conf",
         String.concat nl
           ["no ipv6 forwarding "; "hostname r1 "; "frr defaults traditional ";
            "interface eth1"; " ip address 10.254.0.254/31"; "router ospf ";
            " network 10.254.0.0/16 area 0.0.0.0 "; "line vty ";
            "router bgp 65001"]);
        ("r2_frr.conf",
         String.concat nl
           ["no ipv6 forwarding "; "hostname r2 "; "frr defaults traditional ";
            "interface eth1"; " ip address 10.254.0.255/31"; "router ospf ";
            " network 10.254.0.0/16 area 0.0.0.0 "; "line vty ";
            "router bgp 65002"])].
Proof. vm_compute. reflexivity. Qed.

(** * Further properties *)

(** ** Which parent prefixes are accepted *)

Lemma dotted_range (a b c d : N) :
  (a <= 255)%N -> (b <= 255)%N -> (c <= 255)%N -> (d <= 255)%N ->
  0 <= dotted (Z.of_N a) (Z.of_N b) (Z.of_N c) (Z.of_N d) < 2 ^ 32.
Proof. intros. unfold dotted. change (2 ^ 32) with 4294967296. lia. Qed.

Lemma ip_network_accepts (t : prefix_text) :
  (o1 t <= 255)%N -> (o2 t <= 255)%N -> (o3 t <= 255)%N -> (o4 t <= 255)%N ->
  (plen_text t <= 32)%N ->
  ip_network t =
  new_IPv4Network
    (dotted (Z.of_N (o1 t)) (Z.of_N (o2 t)) (Z.of_N (o3 t)) (Z.of_N (o4 t)))
    (Z.of_N (plen_text t)).
Proof.
  intros H1 H2 H3 H4 Hp. unfold ip_network.
  destruct (N.ltb_spec 255 (o1 t)); [lia|].
  destruct (N.ltb_spec 255 (o2 t)); [lia|].
  destruct (N.ltb_spec 255 (o3 t)); [lia|].
  destruct (N.ltb_spec 255 (o4 t)); [lia|].
  destruct (N.ltb_spec 32 (plen_text t)); [lia|]. reflexivity.
Qed.

Lemma ip_network_inv (t : prefix_text) (n : IPv4Network) :
  ip_network t = Ok n ->
  (o1 t <= 255)%N /\ (o2 t <= 255)%N /\ (o3 t <= 255)%N /\ (o4 t <= 255)%N
  /\ (plen_text t <= 32)%N
  /\ n = mkNet (dotted (Z.of_N (o1 t)) (Z.of_N (o2 t)) (Z.of_N (o3 t))
                  (Z.of_N (o4 t)))
               (Z.of_N (plen_text t)).
Proof.
  unfold ip_network.
  destruct (N.ltb_spec 255 (o1 t)); [discriminate|].
  destruct (N.ltb_spec 255 (o2 t)); [discriminate|].
  destruct (N.ltb_spec 255 (o3 t)); [discriminate|].
  destruct (N.ltb_spec 255 (o4 t)); [discriminate|].
  destruct (N.ltb_spec 32 (plen_text t)); [discriminate|]. cbn [orb].
  intros Hnew. apply new_IPv4Network_inv in Hnew. repeat split; try tauto; lia.
Qed.

Lemma ip_network_raises_value_error (t : prefix_text) (x : exn) :
  ip_network t = Raise x -> exists msg, x = ValueError msg.
Proof.
  unfold ip_network.
  destruct (N.ltb_spec 255 (o1 t)) as [|H1]; [intros [= <-]; eauto|].
  destruct (N.ltb_spec 255 (o2 t)) as [|H2]; [intros [= <-]; eauto|].
  destruct (N.ltb_spec 255 (o3 t)) as [|H3]; [intros [= <-]; eauto|].
  destruct (N.ltb_spec 255 (o4 t)) as [|H4]; [intros [= <-]; eauto|].
  destruct (N.ltb_spec 32 (plen_text t)) as [|Hp]; [intros [= <-]; eauto|].
  cbn [orb]. pose proof (dotted_range _ _ _ _ H1 H2 H3 H4) as Hr.
  unfold new_IPv4Network, ALL_ONES, max_prefixlen.
  destruct (Z.ltb_spec (dotted (Z.of_N (o1 t)) (Z.of_N (o2 t)) (Z.of_N (o3 t))
                          (Z.of_N (o4 t))) 0); [lia|].
  destruct (Z.ltb_spec (2 ^ 32 - 1)
              (dotted (Z.of_N (o1 t)) (Z.of_N (o2 t)) (Z.of_N (o3 t))
                 (Z.of_N (o4 t)))); [lia|].
  cbn [orb].
  destruct (Z.ltb_spec (Z.of_N (plen_text t)) 0); [lia|].
  destruct (Z.ltb_spec 32 (Z.of_N (plen_text t))); [lia|]. cbn [orb].
  destruct (negb _); [intros [= <-]; eauto | discriminate].
Qed.

(** X1.  [generate_31_subnets] returns a list exactly for the texts whose
    octets are at most 255, whose prefix length is below 31 and whose
    address has no host bit set; every other text makes it raise a
    [ValueError]. *)
Theorem generate_31_subnets_accepts (t : prefix_text) :
  ((exists l, generate_31_subnets t = Ok l) <-> subnettable t)
  /\ (forall x, generate_31_subnets t = Raise x -> exists msg, x = ValueError msg).
Proof.
  split; [split|].
  - intros [l Hl]. apply generate_31_subnets_inv in Hl.
    destruct Hl as (block & Hnet & Hlt & _).
    pose proof (ip_network_valid _ _ Hnet) as (_ & _ & Hm).
    apply ip_network_inv in Hnet.
    destruct Hnet as (H1 & H2 & H3 & H4 & Hp & ->). simpl in *.
    repeat split; try assumption. lia.
  - intros (H1 & H2 & H3 & H4 & Hp & Hm).
    eexists. apply generate_31_subnets_ok with
      (block := mkNet (dotted (Z.of_N (o1 t)) (Z.of_N (o2 t)) (Z.of_N (o3 t))
                         (Z.of_N (o4 t))) (Z.of_N (plen_text t)));
      [|simpl; lia].
    rewrite ip_network_accepts by (assumption || lia).
    apply new_IPv4Network_ok. repeat split; simpl; try lia.
    + apply dotted_range; assumption.
    + apply dotted_range; assumption.
    + exact Hm.
  - intros x Hx. destruct (ip_network t) as [block|y] eqn:Hnet.
    + destruct (Z.le_gt_cases 31 (prefixlen block)) as [Hge|Hlt].
      * destruct (generate_31_subnets_narrow t block Hnet Hge) as [msg Hm].
        rewrite Hm in Hx. injection Hx as <-. eauto.
      * rewrite (generate_31_subnets_ok t block Hnet) in Hx by lia. discriminate.
    + unfold generate_31_subnets in Hx. rewrite Hnet in Hx. cbn [bind] in Hx.
      injection Hx as <-. eapply ip_network_raises_value_error; eassumption.
Qed.

(** ** What happens to the pool *)

Lemma list_pop_inv {A : Type} (l l' : list A) (x : A) :
  list_pop l = Ok (x, l') -> l = l' ++ [x].
Proof.
  unfold list_pop. destruct (rev l) as [|y r] eqn:E; [discriminate|].
  intros [= <- <-]. rewrite <- (rev_involutive l), E. reflexivity.
Qed.

Lemma link_body_pool (link : pyval) (rc : rtr_dict) (p : pool) :
  snd (link_body link rc p) = p
  \/ exists s, p = snd (link_body link rc p) ++ [s].
Proof.
  unfold link_body, bindS, lift, pop, ret.
  destruct (link_endpoints link) as [e|x]; [|left; reflexivity].
  destruct (list_pop p) as [[s p']|x] eqn:Hpop; [|left; reflexivity].
  apply list_pop_inv in Hpop. right. exists s.
  repeat match goal with
         | |- context [match ?r with Ok _ => _ | Raise _ => _ end] =>
             destruct r
         | |- context [let '(_, _) := ?q in _] => destruct q
         end; exact Hpop.
Qed.

Lemma for_links_pool_shrinks (links : list pyval) :
  forall (rc : rtr_dict) (p : pool),
    exists n,
      (n <= length links)%nat /\ (n <= length p)%nat
      /\ snd (for_links links rc p) = firstn (length p - n) p.
Proof.
  induction links as [|link links IH]; intros rc p.
  - exists 0%nat. simpl. rewrite Nat.sub_0_r, firstn_all. auto with arith.
  - cbn [for_links]. unfold bindS.
    pose proof (link_body_pool link rc p) as Hstep.
    destruct (link_body link rc p) as [[rc'|x] p1]; cbn [snd] in Hstep.
    + destruct (IH rc' p1) as (n & Hn & Hp & Hrun). rewrite Hrun.
      destruct Hstep as [->|[s ->]].
      * exists n. simpl. auto with arith.
      * exists (S n). rewrite length_app. simpl. split; [lia|]. split; [lia|].
        rewrite firstn_app.
        replace (length p1 + 1 - S n - length p1)%nat with 0%nat by lia.
        cbn [firstn]. rewrite app_nil_r. f_equal. lia.
    + cbn [snd]. destruct Hstep as [->|[s ->]].
      * exists 0%nat. rewrite Nat.sub_0_r, firstn_all. simpl. auto with arith.
      * exists 1%nat. rewrite length_app. simpl. split; [lia|]. split; [lia|].
        rewrite firstn_app.
        replace (length p1 + 1 - 1 - length p1)%nat with 0%nat by lia.
        replace (length p1 + 1 - 1)%nat with (length p1) by lia.
        cbn [firstn]. now rewrite firstn_all, app_nil_r.
Qed.

(** X2.  Whatever the topology data and whatever the pool holds, and
    whether the call returns or raises, the pool it leaves is the pool it
    was given with some number of subnets taken off its tail: nothing is
    added, reordered or taken from elsewhere. *)
Theorem pool_only_shrinks (p : pool) (parsed_data : pyval) :
  exists n,
    (n <= length p)%nat
    /\ snd (generate_frrouter_addressing_info p parsed_data)
       = firstn (length p - n) p.
Proof.
  assert (Hsame : forall x : exn,
             exists n, (n <= length p)%nat
                       /\ snd (@Raise rtr_dict x, p) = firstn (length p - n) p).
  { intros x. exists 0%nat. rewrite Nat.sub_0_r, firstn_all. auto with arith. }
  unfold generate_frrouter_addressing_info, bindS, lift.
  destruct (py_contains "links" parsed_data) as [[|]|x]; try apply Hsame.
  destruct (py_getitem_str parsed_data "links") as [links|x]; try apply Hsame.
  destruct (py_iter links) as [items|x]; try apply Hsame.
  destruct (for_links_pool_shrinks items [] p) as (n & _ & Hn & Hrun).
  exists n. split; [exact Hn|].
  destruct (for_links items [] p) as [[rc|x] p']; exact Hrun.
Qed.

(** X3.  When a link cannot be read (its endpoints are missing or are not
    two strings with one colon each), the call raises what reading it
    raised; the links before it have each taken their subnet from the
    pool's tail and the pool stays that much shorter, while the unreadable
    link itself takes none. *)
Theorem unreadable_link_stops_midway
  (d : list (string * pyval)) (good rest : list pyval) (bad : pyval)
  (es : list endpoints) (x : exn) (p : pool) :
  dict_get "links" d = Some (PyList (good ++ bad :: rest)) ->
  mapM link_endpoints good = Ok es ->
  link_endpoints bad = Raise x ->
  Forall is_subnet p ->
  (length es <= length p)%nat ->
  generate_frrouter_addressing_info p (PyDict d)
  = (Raise x, firstn (length p - length es) p).
Proof.
  intros Hd Hes Hbad Hp Hlen.
  rewrite (addressing_info_links d _ p Hd), for_links_app.
  rewrite (for_links_pool good es p Hes Hp Hlen).
  cbn [for_links]. unfold bindS.
  now rewrite (link_body_malformed bad x _ _ Hbad).
Qed.

Lemma unreadable_link_stops_midway_witness :
  generate_frrouter_addressing_info
    (consecutive_31 (dotted 10 254 0 0) 4)
    (PyDict [("links",
              PyList (map link_entry two_links
                      ++ PyDict [("endpoints", PyList [PyStr "r4eth1"; PyStr "r1:eth3"])]
                         :: map link_entry two_links))])
  = (Raise (ValueError "not enough values to unpack (expected 2)"),
     consecutive_31 (dotted 10 254 0 0) 2).
Proof.
  exact (unreadable_link_stops_midway
           [("links",
             PyList (map link_entry two_links
                     ++ PyDict [("endpoints", PyList [PyStr "r4eth1"; PyStr "r1:eth3"])]
                        :: map link_entry two_links))]
           (map link_entry two_links) (map link_entry two_links)
           (PyDict [("endpoints", PyList [PyStr "r4eth1"; PyStr "r1:eth3"])])
           two_links (ValueError "not enough values to unpack (expected 2)")
           (consecutive_31 (dotted 10 254 0 0) 4)
           eq_refl eq_refl eq_refl
           (generated_are_subnets (mkText 10 254 0 0 29) _ eq_refl)
           (le_S _ _ (le_S _ _ (le_n 2)))).
Defined.

Lemma for_links_surplus (served rest : list pyval) (es : list endpoints)
  (p : pool) :
  mapM link_endpoints served = Ok es ->
  Forall is_subnet p ->
  length served = S (length p) ->
  for_links (served ++ rest) [] p
  = (Raise (IndexError "pop from empty list"), []).
Proof.
  intros Hes Hp Hlen. rewrite for_links_app.
  destruct (for_links_exhausted served es p Hes Hp Hlen) as [Hrun _].
  now rewrite Hrun.
Qed.

(** X4.  Any number of links above the number of subnets ends the same
    way: the link one past the pool's size meets the empty pool and [pop]
    raises [IndexError]; the links after it are never looked at, readable
    or not. *)
Theorem surplus_links_exhaust_pool
  (d : list (string * pyval)) (served rest : list pyval)
  (es : list endpoints) (p : pool) :
  dict_get "links" d = Some (PyList (served ++ rest)) ->
  mapM link_endpoints served = Ok es ->
  Forall is_subnet p ->
  length served = S (length p) ->
  generate_frrouter_addressing_info p (PyDict d)
  = (Raise (IndexError "pop from empty list"), []).
Proof.
  intros Hd Hes Hp Hlen.
  rewrite (addressing_info_links d _ p Hd).
  now apply for_links_surplus with es.
Qed.

Lemma surplus_links_exhaust_pool_witness :
  generate_frrouter_addressing_info
    (consecutive_31 (dotted 10 254 0 0) 2)
    (PyDict [("links", PyList (map link_entry three_links ++ [PyNone; PyInt 7]))])
  = (Raise (IndexError "pop from empty list"), []).
Proof.
  exact (surplus_links_exhaust_pool
           [("links", PyList (map link_entry three_links ++ [PyNone; PyInt 7]))]
           (map link_entry three_links) [PyNone; PyInt 7] three_links
           (consecutive_31 (dotted 10 254 0 0) 2)
           eq_refl eq_refl
           (generated_are_subnets (mkText 10 254 0 0 30) _ eq_refl)
           eq_refl).
Defined.

(** ** Reading a link *)

Lemma split_on_nonempty (c : ascii) (s : string) : split_on c s <> [].
Proof.
  destruct s as [|a s]; simpl; [discriminate|].
  destruct (Ascii.eqb a c); [discriminate|].
  destruct (split_on c s); discriminate.
Qed.

Lemma split_on_join (c : ascii) (s : string) :
  join (String c EmptyString) (split_on c s) = s.
Proof.
  induction s as [|a s IH]; [reflexivity|]. cbn [split_on].
  pose proof (split_on_nonempty c s) as Hne.
  destruct (Ascii.eqb_spec a c) as [->|Hac].
  - destruct (split_on c s) as [|hd tl]; [contradiction|].
    rewrite <- IH. reflexivity.
  - destruct (split_on c s) as [|hd tl]; [contradiction|].
    rewrite <- IH. destruct tl; reflexivity.
Qed.

Lemma split_on_avoids (c : ascii) (s : string) :
  Forall (fun part => avoids c part = true) (split_on c s).
Proof.
  induction s as [|a s IH]; cbn [split_on]; [repeat constructor|].
  destruct (Ascii.eqb a c) eqn:Eac; [constructor; [reflexivity|exact IH]|].
  destruct (split_on c s) as [|hd tl]; [repeat constructor; simpl; now rewrite Eac|].
  inversion IH as [|? ? Hhd Htl]; subst. constructor; [|exact Htl].
  simpl. now rewrite Eac, Hhd.
Qed.

Lemma split_in_two (s x y : string) :
  split_on ":" s = [x; y] <->
  s = endpoint x y /\ no_colon x = true /\ no_colon y = true.
Proof.
  split.
  - intros H. pose proof (split_on_join ":" s) as Hj.
    pose proof (split_on_avoids ":" s) as Ha. rewrite H in Hj, Ha.
    apply Forall_cons_iff in Ha. destruct Ha as [Hx Ha].
    apply Forall_cons_iff in Ha. destruct Ha as [Hy _].
    cbn [join] in Hj. unfold endpoint, no_colon. auto.
  - intros (-> & Hx & Hy). now apply split_on_endpoint.
Qed.

Lemma unpack2_inv {A : Type} (l : list A) (a b : A) :
  unpack2 l = Ok (a, b) <-> l = [a; b].
Proof.
  split; [|intros ->; reflexivity].
  destruct l as [|x [|y [|z l]]]; simpl; try discriminate. now intros [= -> ->].
Qed.

(** X5.  A link entry is read successfully exactly when its first two
    endpoint strings each hold one colon; the router and interface names
    are then the parts before and after the colon, so that joining them
    with a colon gives the endpoint strings back.  Entries of the endpoint
    list beyond the second are not looked at. *)
Theorem link_read_iff_one_colon
  (d : list (string * pyval)) (a b : string) (more : list pyval)
  (e : endpoints) :
  dict_get "endpoints" d = Some (PyList (PyStr a :: PyStr b :: more)) ->
  (link_endpoints (PyDict d) = Ok e <->
   a = endpoint (a_router e) (a_link e)
   /\ b = endpoint (b_router e) (b_link e)
   /\ well_formed e = true).
Proof.
  intros Hd. unfold link_endpoints.
  cbn [py_getitem_str]. unfold dict_getitem. rewrite Hd.
  cbn [bind py_getitem_int nth_error py_split].
  unfold well_formed. rewrite !andb_true_iff. split.
  - destruct (unpack2 (split_on ":" a)) as [[ar al]|] eqn:Ea; [|discriminate].
    destruct (unpack2 (split_on ":" b)) as [[br bl]|] eqn:Eb; [|discriminate].
    cbn [bind]. intros [= <-]. cbn [a_router a_link b_router b_link].
    apply unpack2_inv, split_in_two in Ea. apply unpack2_inv, split_in_two in Eb.
    tauto.
  - intros (Ha & Hb & [[[Har Hal] Hbr] Hbl]).
    assert (Ea : split_on ":" a = [a_router e; a_link e])
      by (apply split_in_two; auto).
    assert (Eb : split_on ":" b = [b_router e; b_link e])
      by (apply split_in_two; auto).
    rewrite Ea, Eb. destruct e; reflexivity.
Qed.

Lemma link_read_iff_one_colon_witness :
  link_endpoints
    (PyDict [("note", PyStr "uplink");
             ("endpoints", PyList [PyStr "r1:eth1"; PyStr "r2:eth1"; PyInt 3])])
  = Ok (mkEnds "r1" "eth1" "r2" "eth1").
Proof.
  apply (proj2 (link_read_iff_one_colon
                  [("note", PyStr "uplink");
                   ("endpoints", PyList [PyStr "r1:eth1"; PyStr "r2:eth1"; PyInt 3])]
                  "r1:eth1" "r2:eth1" [PyInt 3]
                  (mkEnds "r1" "eth1" "r2" "eth1") eq_refl)).
  repeat split.
Defined.

(** ** The router set the links produce *)

Lemma among_false_iff (r : string) (ks : list string) :
  among r ks = false <-> ~ In r ks.
Proof.
  rewrite <- among_in. destruct (among r ks); split; congruence.
Qed.

Lemma extend_keys (r : string) (lines : list string) (d : rtr_dict) :
  dict_keys (extend r lines d) = add_new r (dict_keys d).
Proof.
  unfold extend, add_new. destruct (among r (dict_keys d)) eqn:E.
  - apply dict_keys_set_present. now apply among_in.
  - apply dict_keys_set_absent. now apply among_false_iff.
Qed.

Lemma assign_keys (es : list endpoints) :
  forall (subs : list IPv4Network) (d : rtr_dict),
    length subs = length es ->
    dict_keys (assign es subs d)
    = fold_left (fun ks e => add_new (b_router e) (add_new (a_router e) ks))
        es (dict_keys d).
Proof.
  induction es as [|e es IH]; intros [|s subs] d Hlen; try discriminate;
    [reflexivity|].
  cbn [assign fold_left]. rewrite IH by (simpl in Hlen; lia).
  unfold bind_link. now rewrite !extend_keys.
Qed.

(** X6.  The routers of the dictionary returned are those the links name,
    each once, in the order in which the links first mention them (first
    endpoint before second); this is the order in which [main] later
    writes files and lists nodes. *)
Theorem routers_in_order_of_first_mention
  (d : list (string * pyval)) (links : list pyval) (es : list endpoints)
  (p : pool) :
  dict_get "links" d = Some (PyList links) ->
  mapM link_endpoints links = Ok es ->
  Forall is_subnet p ->
  (length es <= length p)%nat ->
  exists rc rest,
    generate_frrouter_addressing_info p (PyDict d) = (Ok rc, rest)
    /\ dict_keys rc = routers_of es
    /\ NoDup (dict_keys rc).
Proof.
  intros Hd Hes Hp Hlen.
  exists (assign es (firstn (length es) (rev p)) []),
         (firstn (length p - length es) p).
  split; [|split].
  - rewrite (addressing_info_links d links p Hd).
    apply for_links_pool; assumption.
  - apply assign_keys. rewrite length_firstn, length_rev. lia.
  - apply assign_keys_nodup. constructor.
Qed.

Lemma routers_in_order_of_first_mention_witness :
  exists rc rest,
    generate_frrouter_addressing_info
      (consecutive_31 (dotted 10 254 0 0) 4)
      (PyDict [("links", PyList (map link_entry three_links))])
    = (Ok rc, rest)
    /\ dict_keys rc = ["r1"; "r2"; "r3"].
Proof.
  destruct (routers_in_order_of_first_mention
              [("links", PyList (map link_entry three_links))]
              (map link_entry three_links) three_links
              (consecutive_31 (dotted 10 254 0 0) 4)
              eq_refl eq_refl
              (generated_are_subnets (mkText 10 254 0 0 29) _ eq_refl)
              (le_S _ _ (le_n 3)))
    as (rc & rest & Hrun & Hkeys & _).
  exists rc, rest. split; [exact Hrun | exact Hkeys].
Defined.

(** ** How much each router receives *)

Lemma link_fragments_length (r : string) (e : endpoints) (s : IPv4Network) :
  length (link_fragments r e s)
  = ((if String.eqb r (a_router e) then 1 else 0)
     + (if String.eqb r (b_router e) then 1 else 0))%nat.
Proof.
  unfold link_fragments. rewrite length_app.
  destruct (String.eqb r (a_router e)), (String.eqb r (b_router e)); reflexivity.
Qed.

Lemma router_fragments_length (r : string) (es : list endpoints) :
  forall subs : list IPv4Network,
    (length es <= length subs)%nat ->
    length (router_fragments r es subs) = occurrences r es.
Proof.
  induction es as [|e es IH]; intros [|s subs] Hlen; simpl in *;
    try reflexivity; try lia.
  rewrite length_app, link_fragments_length, IH by lia. lia.
Qed.

Lemma interface_blocks_length (fs : list (string * Z)) :
  length (flat_map interface_block fs) = (2 * length fs)%nat.
Proof. induction fs as [|f fs IH]; simpl; [reflexivity|]. rewrite IH. lia. Qed.

Lemma occurrences_mentioned (r : string) (es : list endpoints) :
  mentioned r es = false -> occurrences r es = 0%nat.
Proof.
  induction es as [|e es IH]; simpl; [reflexivity|].
  intros H. apply orb_false_iff in H. destruct H as [H Hes].
  apply orb_false_iff in H. destruct H as [-> ->]. now rewrite IH.
Qed.

(** X7.  Every endpoint of every link gives its router exactly one block
    of two lines and nothing else is written: in the dictionary returned a
    router holds twice as many lines as there are endpoints naming it, and
    a router no endpoint names is absent. *)
Theorem two_lines_per_endpoint
  (d : list (string * pyval)) (links : list pyval) (es : list endpoints)
  (p : pool) :
  dict_get "links" d = Some (PyList links) ->
  mapM link_endpoints links = Ok es ->
  Forall is_subnet p ->
  (length es <= length p)%nat ->
  exists rc rest,
    generate_frrouter_addressing_info p (PyDict d) = (Ok rc, rest)
    /\ forall r,
        length (lines_of r rc) = (2 * occurrences r es)%nat
        /\ (dict_mem r rc = true <-> (0 < occurrences r es)%nat).
Proof.
  intros Hd Hes Hp Hlen.
  set (subs := firstn (length es) (rev p)).
  assert (Hsubs : length subs = length es).
  { subst subs. rewrite length_firstn, length_rev. lia. }
  exists (assign es subs []), (firstn (length p - length es) p).
  split.
  - rewrite (addressing_info_links d links p Hd).
    apply for_links_pool; assumption.
  - intros r. split.
    + rewrite assign_lines by exact Hsubs. cbn [lines_of dict_get app].
      rewrite interface_blocks_length, router_fragments_length by lia.
      reflexivity.
    + rewrite assign_mem by exact Hsubs. cbn [dict_mem dict_get orb].
      destruct (mentioned r es) eqn:Em.
      * split; [intros _|reflexivity].
        clear - Em. induction es as [|e es IH]; simpl in *; [discriminate|].
        destruct (String.eqb r (a_router e)); [lia|].
        destruct (String.eqb r (b_router e)); [lia|]. simpl in *. auto.
      * rewrite (occurrences_mentioned r es Em). split; [discriminate|lia].
Qed.

Lemma two_lines_per_endpoint_witness :
  exists rc rest,
    generate_frrouter_addressing_info
      (consecutive_31 (dotted 10 254 0 0) 4)
      (PyDict [("links", PyList (map link_entry three_links))])
    = (Ok rc, rest)
    /\ length (lines_of "r1" rc) = 4%nat.
Proof.
  destruct (two_lines_per_endpoint
              [("links", PyList (map link_entry three_links))]
              (map link_entry three_links) three_links
              (consecutive_31 (dotted 10 254 0 0) 4)
              eq_refl eq_refl
              (generated_are_subnets (mkText 10 254 0 0 29) _ eq_refl)
              (le_S _ _ (le_n 3)))
    as (rc & rest & Hrun & Hall).
  exists rc, rest. split; [exact Hrun | exact (proj1 (Hall "r1"))].
Defined.

(** ** When assembly returns *)

Lemma bgp_loop_runs (bgp : dict string) :
  forall rc : rtr_dict,
    (forall k, In k (dict_keys bgp) -> In k (dict_keys rc)) ->
    exists rc',
      foldM append_bgp_config bgp rc = Ok rc' /\ dict_keys rc' = dict_keys rc.
Proof.
  induction bgp as [|[k config] bgp IH]; intros rc Hin.
  - exists rc. simpl. auto.
  - destruct (dict_in_get k rc (Hin k (or_introl eq_refl))) as [l Hl].
    cbn [foldM]. rewrite (append_bgp_config_ok rc k config l Hl). cbn [bind].
    set (rc1 := dict_set k (l ++ [config]) rc).
    assert (Hkeys : dict_keys rc1 = dict_keys rc).
    { apply dict_keys_set_present. eapply dict_get_some_in; eassumption. }
    destruct (IH rc1) as (rc' & Hrun & Hk').
    { intros k' Hk'. rewrite Hkeys. apply Hin. now right. }
    exists rc'. split; [exact Hrun | congruence].
Qed.

Lemma bgp_loop_ok_inv (bgp : dict string) :
  forall rc rc' : rtr_dict,
    foldM append_bgp_config bgp rc = Ok rc' ->
    forall k, In k (dict_keys bgp) -> In k (dict_keys rc).
Proof.
  induction bgp as [|[k config] bgp IH]; intros rc rc' Hrun k0 Hk0; [destruct Hk0|].
  cbn [foldM] in Hrun. destruct (dict_get k rc) as [l|] eqn:El.
  - rewrite (append_bgp_config_ok rc k config l El) in Hrun. cbn [bind] in Hrun.
    destruct Hk0 as [<-|Hin]; [eapply dict_get_some_in; eassumption|].
    specialize (IH _ _ Hrun k0 Hin).
    rewrite dict_keys_set_present in IH; [exact IH|].
    eapply dict_get_some_in; eassumption.
  - unfold append_bgp_config in Hrun.
    rewrite (dict_modify_missing _ _ _ El) in Hrun. discriminate.
Qed.

(** X8.  Assembly returns exactly when every router the exterior-protocol
    mapping names is in the router set; a router of the set that the
    mapping leaves out is no obstacle.  When it returns, the router set
    and its order are what they were. *)
Theorem assembly_returns_iff (rc : rtr_dict) (bgp : dict string) :
  ((exists final, assemble_configs rc bgp = Ok final)
   <-> (forall k, In k (dict_keys bgp) -> In k (dict_keys rc)))
  /\ (forall final,
         assemble_configs rc bgp = Ok final -> dict_keys final = dict_keys rc).
Proof.
  unfold assemble_configs.
  destruct (base_loop_runs (dict_keys rc) rc (fun k H => H)) as (rc1 & Hrun & Hk).
  rewrite Hrun. cbn [bind]. split; [split|].
  - intros [final Hfinal] k Hin. rewrite <- Hk.
    eapply bgp_loop_ok_inv; eassumption.
  - intros Hsub. destruct (bgp_loop_runs bgp rc1) as (rc2 & Hrun2 & _).
    + intros k Hin. rewrite Hk. auto.
    + eauto.
  - intros final Hfinal.
    destruct (bgp_loop_runs bgp rc1) as (rc2 & Hrun2 & Hk2).
    + intros k Hin. rewrite Hk. rewrite <- Hk.
      eapply bgp_loop_ok_inv; eassumption.
    + congruence.
Qed.

(** ** The files written *)

Lemma string_app_assoc (a b c : string) :
  ((a ++ b) ++ c)%string = (a ++ b ++ c)%string.
Proof. induction a as [|x a IH]; simpl; [reflexivity|]. now rewrite IH. Qed.

Lemma string_app_nil_r (a : string) : (a ++ "")%string = a.
Proof. induction a as [|x a IH]; simpl; [reflexivity|]. now rewrite IH. Qed.







(** ** The lab descriptor *)

Lemma concat_cons (x : string) (xs : list string) :
  String.concat "" (x :: xs) = (x ++ String.concat "" xs)%string.
Proof.
  destruct xs as [|y ys]; [simpl; now rewrite string_app_nil_r | reflexivity].
Qed.

Lemma foldM_append {A B : Type} (f : string -> B -> result string)
  (h : A -> B) (g : A -> string) (l : list A) :
  (forall acc x, In x l -> f acc (h x) = Ok (acc ++ g x)%string) ->
  forall acc,
    foldM f (map h l) acc = Ok (acc ++ String.concat "" (map g l))%string.
Proof.
  induction l as [|x l IH]; intros Hf acc.
  - simpl. now rewrite string_app_nil_r.
  - cbn [foldM map]. rewrite (Hf acc x (or_introl eq_refl)). cbn [bind].
    rewrite IH by (intros acc' y Hy; apply Hf; now right).
    now rewrite concat_cons, string_app_assoc.
Qed.

Lemma node_to_yaml_details (acc router : string) :
  node_to_yaml acc (router, node_details router)
  = Ok (acc ++ node_text router)%string.
Proof.
  unfold node_to_yaml, node_details, node_text.
  cbn [py_items bind foldM detail_to_yaml fold_left py_str].
  rewrite !string_app_assoc. reflexivity.
Qed.

Lemma link_to_yaml_entry (acc : string) (e : endpoints) :
  link_to_yaml acc (link_entry e) = Ok (acc ++ link_text e)%string.
Proof.
  unfold link_to_yaml, link_entry, link_text.
  cbn [py_getitem_str dict_getitem dict_get String.eqb Ascii.eqb Bool.eqb
       bind py_iter map join py_str].
  rewrite !string_app_assoc. reflexivity.
Qed.

(** X10.  The link list of the descriptor: for links given as two endpoint
    strings each, [links_to_yaml_string] writes the heading and then one
    line per link, in the order of the links, with the two endpoint
    strings as they came, each between double quotes. *)
Theorem links_serialised_in_order (es : list endpoints) :
  links_to_yaml_string (PyList (map link_entry es))
  = Ok (("  links:" ++ nl) ++ String.concat "" (map link_text es))%string.
Proof.
  unfold links_to_yaml_string. cbn [py_iter bind].
  apply foldM_append. intros acc e _. apply link_to_yaml_entry.
Qed.

Lemma dict_set_absent {V : Type} (k : string) (v : V) (d : dict V) :
  ~ In k (dict_keys d) -> dict_set k v d = d ++ [(k, v)].
Proof.
  induction d as [|[k' v'] d IH]; simpl; [reflexivity|].
  intros Hnin. destruct (String.eqb_spec k k') as [->|Hne]; [tauto|].
  f_equal. apply IH. tauto.
Qed.

Lemma dict_set_last {V : Type} (k : string) (v v0 : V) (d : dict V) :
  ~ In k (dict_keys d) -> dict_set k v (d ++ [(k, v0)]) = d ++ [(k, v)].
Proof.
  induction d as [|[k' v'] d IH]; simpl.
  - now rewrite String.eqb_refl.
  - intros Hnin. destruct (String.eqb_spec k k') as [->|Hne]; [tauto|].
    f_equal. apply IH. tauto.
Qed.

Lemma populate_nodes_from (rc : rtr_dict) :
  forall nodes : dict pyval,
    NoDup (dict_keys nodes ++ dict_keys rc) ->
    fold_left
      (fun nodes rc =>
         dict_set (fst rc) (node_details (fst rc))
           (dict_set (fst rc) (PyDict []) nodes))
      rc nodes
    = nodes ++ map (fun r => (r, node_details r)) (dict_keys rc).
Proof.
  induction rc as [|[k v] rc IH]; intros nodes Hnd; simpl.
  - now rewrite app_nil_r.
  - assert (Hk : ~ In k (dict_keys nodes)).
    { apply NoDup_remove_2 in Hnd. intros Hin. apply Hnd.
      apply in_or_app. now left. }
    rewrite (dict_set_absent k (PyDict []) nodes Hk).
    rewrite (dict_set_last k (node_details k) (PyDict []) nodes Hk).
    rewrite IH.
    + now rewrite <- app_assoc.
    + unfold dict_keys in *. rewrite map_app. simpl. rewrite <- app_assoc.
      exact Hnd.
Qed.

Lemma populate_nodes_eq (rc : rtr_dict) :
  NoDup (dict_keys rc) ->
  populate_nodes rc = map (fun r => (r, node_details r)) (dict_keys rc).
Proof. intros Hnd. unfold populate_nodes. now rewrite populate_nodes_from. Qed.

Lemma nodes_section (rc : rtr_dict) :
  NoDup (dict_keys rc) ->
  nodes_to_yaml_string (PyDict (populate_nodes rc))
  = Ok (("  nodes:" ++ nl)
        ++ String.concat "" (map node_text (dict_keys rc)))%string.
Proof.
  intros Hnd. rewrite (populate_nodes_eq rc Hnd).
  unfold nodes_to_yaml_string. cbn [py_items bind].
  apply foldM_append. intros acc r _. apply node_to_yaml_details.
Qed.

Lemma descriptor_text (links : pyval) (rc : rtr_dict) (links_text : string) :
  NoDup (dict_keys rc) ->
  links_to_yaml_string links = Ok links_text ->
  generate_clab_yml_config (topology_data links rc)
  = Ok ("name: lab_example" ++ nl ++ nl ++ "topology:" ++ nl
        ++ "  nodes:" ++ nl
        ++ String.concat "" (map node_text (dict_keys rc))
        ++ links_text)%string.
Proof.
  intros Hnd Hlinks. unfold generate_clab_yml_config, topology_data.
  cbn [py_getitem_str dict_getitem dict_get String.eqb Ascii.eqb Bool.eqb
       bind py_contains dict_mem py_str].
  rewrite (nodes_section rc Hnd), Hlinks. cbn [bind].
  rewrite !string_app_assoc. reflexivity.
Qed.

(** X11.  The descriptor [main] generates: the name line, an empty line,
    the topology heading, the node map with one block per router in the
    order of the router dictionary, and the link list.  A router's block
    gives kind [linux], the image, and two binds, the second being the
    router's own configuration file under the name it is written to. *)
Theorem descriptor_of_main (links : pyval) (rc : rtr_dict) (links_text : string) :
  NoDup (dict_keys rc) ->
  links_to_yaml_string links = Ok links_text ->
  generate_clab_yml_config (topology_data links rc)
  = Ok ("name: lab_example" ++ nl ++ nl ++ "topology:" ++ nl
        ++ "  nodes:" ++ nl
        ++ String.concat ""
             (map (fun router =>
                     "    " ++ router ++ ":" ++ nl
                     ++ "      kind: linux" ++ nl
                     ++ "      image: frrouting/frr:v7.5.1" ++ nl
                     ++ "      binds:" ++ nl
                     ++ "        - ./daemons:/etc/frr/daemons" ++ nl
                     ++ "        - " ++ router ++ "_frr.conf:/etc/frr/frr.conf" ++ nl)
                (dict_keys rc))
        ++ links_text)%string.
Proof. exact (descriptor_text links rc links_text). Qed.

Lemma descriptor_of_main_witness :
  generate_clab_yml_config
    (topology_data (PyList (map link_entry [mkEnds "r1" "eth1" "r2" "eth1"]))
       [("r1", ["x"]); ("r2", ["y"])])
  = Ok (String.concat nl
          ["name: lab_example"; ""; "topology:"; "  nodes:";
           "    r1:"; "      kind: linux"; "      image: frrouting/frr:v7.5.1";
           "      binds:"; "        - ./daemons:/etc/frr/daemons";
           "        - r1_frr.conf:/etc/frr/frr.conf";
           "    r2:"; "      kind: linux"; "      image: frrouting/frr:v7.5.1";
           "      binds:"; "        - ./daemons:/etc/frr/daemons";
           "        - r2_frr.conf:/etc/frr/frr.conf";
           "  links:";
           ("    - endpoints: [" ++ dquote ++ "r1:eth1" ++ dquote ++ ", "
            ++ dquote ++ "r2:eth1" ++ dquote ++ "]")%string;
           ""]).
Proof.
  assert (Hnd : NoDup (dict_keys [("r1", ["x"]); ("r2", ["y"])])).
  { repeat constructor; simpl; intuition discriminate. }
  exact (descriptor_of_main
           (PyList (map link_entry [mkEnds "r1" "eth1" "r2" "eth1"]))
           [("r1", ["x"]); ("r2", ["y"])]
           (("  links:" ++ nl)
            ++ String.concat "" (map link_text [mkEnds "r1" "eth1" "r2" "eth1"]))%string
           Hnd eq_refl).
Defined.

(** ** The descriptor stage cannot fail *)

Lemma link_to_yaml_runs (link : pyval) (e : endpoints) (acc : string) :
  link_endpoints link = Ok e -> exists text, link_to_yaml acc link = Ok text.
Proof.
  unfold link_endpoints, link_to_yaml.
  destruct (py_getitem_str link "endpoints") as [listed|x]; [|discriminate].
  cbn [bind]. destruct listed as [| | | s | items | entries];
    cbn [py_getitem_int bind py_iter]; try discriminate; eauto.
Qed.

Lemma for_links_ok_inv (links : list pyval) :
  forall (rc rc' : rtr_dict) (p p' : pool),
    for_links links rc p = (Ok rc', p') ->
    Forall (fun link => exists e, link_endpoints link = Ok e) links.
Proof.
  induction links as [|link links IH]; intros rc rc' p p' Hrun; [constructor|].
  cbn [for_links] in Hrun. unfold bindS in Hrun.
  destruct (link_endpoints link) as [e|x] eqn:He.
  - destruct (link_body link rc p) as [[rc1|x] p1]; [|discriminate].
    constructor; [eauto | eapply IH; eassumption].
  - rewrite (link_body_malformed link x rc p He) in Hrun. discriminate.
Qed.

Lemma links_foldM_runs (links : list pyval) :
  Forall (fun link => exists e, link_endpoints link = Ok e) links ->
  forall acc, exists text, foldM link_to_yaml links acc = Ok text.
Proof.
  induction 1 as [|link links [e He] _ IH]; intros acc; [simpl; eauto|].
  cbn [foldM]. destruct (link_to_yaml_runs link e acc He) as [text Ht].
  rewrite Ht. cbn [bind]. apply IH.
Qed.

Lemma addressing_ok_inv (p p' : pool) (parsed_data : pyval) (rc : rtr_dict) :
  generate_frrouter_addressing_info p parsed_data = (Ok rc, p') ->
  exists links items,
    py_getitem_str parsed_data "links" = Ok links
    /\ py_iter links = Ok items
    /\ for_links items [] p = (Ok rc, p').
Proof.
  unfold generate_frrouter_addressing_info, bindS, lift.
  destruct (py_contains "links" parsed_data) as [[|]|x];
    [|intros [=]|intros [=]].
  destruct (py_getitem_str parsed_data "links") as [links|x] eqn:Hget;
    [|intros [=]].
  destruct (py_iter links) as [items|x] eqn:Hiter; [|intros [=]].
  intros H. exists links, items. auto.
Qed.

Lemma links_serialise_after_addressing
  (p p' : pool) (parsed_data : pyval) (rc : rtr_dict) :
  generate_frrouter_addressing_info p parsed_data = (Ok rc, p') ->
  exists links text,
    py_getitem_str parsed_data "links" = Ok links
    /\ links_to_yaml_string links = Ok text.
Proof.
  intros H. apply addressing_ok_inv in H.
  destruct H as (links & items & Hget & Hiter & Hrun).
  apply for_links_ok_inv in Hrun.
  destruct (links_foldM_runs items Hrun ("  links:" ++ nl)%string) as [text Ht].
  exists links, text. split; [exact Hget|].
  unfold links_to_yaml_string. rewrite Hiter. exact Ht.
Qed.

(** X12.  Once the addressing call has returned for some topology data,
    serialising that data's links cannot fail: every link the addressing
    loop could read has an [endpoints] entry that can be iterated, which is
    all [links_to_yaml_string] asks for. *)
Theorem link_list_never_fails_after_addressing
  (p p' : pool) (parsed_data : pyval) (rc : rtr_dict) :
  generate_frrouter_addressing_info p parsed_data = (Ok rc, p') ->
  exists links text,
    py_getitem_str parsed_data "links" = Ok links
    /\ links_to_yaml_string links = Ok text.
Proof. apply links_serialise_after_addressing. Qed.

Lemma link_list_never_fails_after_addressing_witness :
  exists links text,
    py_getitem_str example_topology "links" = Ok links
    /\ links_to_yaml_string links = Ok text.
Proof.
  exact (link_list_never_fails_after_addressing
           [mkNet (dotted 10 254 0 0) 31] [] example_topology
           [("r1", [interface_line "eth1"; address_line (dotted 10 254 0 0) 31]);
            ("r2", [interface_line "eth1"; address_line (dotted 10 254 0 1) 31])]
           eq_refl).
Defined.

(** ** The files after the descriptor stage *)












(** ** The chat *)

Section ChatProperties.

Variable completion : list message -> string.

Lemma chat_loop_until_quit (before : list string) :
  forall (line : string) (after : list string) (messages : list message)
         (stdout : string),
    forallb (fun l => negb (says_quit l)) before = true ->
    says_quit line = true ->
    let r := chat_loop completion (before ++ line :: after) messages stdout in
    ended r = Quit
    /\ unread r = after
    /\ (exists added,
           sent r = messages ++ added
           /\ map role added = flat_map (fun _ => ["user"; "assistant"]) before
           /\ map content (filter (fun m => String.eqb (role m) "user") added)
              = before).
Proof.
  induction before as [|l before IH]; intros line after messages stdout Hb Hq.
  - cbn [app chat_loop]. unfold says_quit in Hq. rewrite Hq. cbn.
    repeat split. exists []. now rewrite app_nil_r.
  - cbn [forallb] in Hb. apply andb_true_iff in Hb. destruct Hb as [Hl Hb].
    apply negb_true_iff in Hl. unfold says_quit in Hl.
    cbn [app chat_loop]. rewrite Hl.
    specialize (IH line after
                  (list_append
                     (mkMessage "assistant"
                        (completion (list_append (mkMessage "user" l) messages)))
                     (list_append (mkMessage "user" l) messages))
                  (((stdout ++ "User: ") ++ "LLM: "
                    ++ completion (list_append (mkMessage "user" l) messages)
                    ++ nl)%string) Hb Hq).
    cbv zeta in IH. destruct IH as (He & Hu & added & Hs & Hr & Hc).
    split; [exact He|]. split; [exact Hu|].
    exists (mkMessage "user" l
            :: mkMessage "assistant"
                 (completion (list_append (mkMessage "user" l) messages))
            :: added).
    split; [|split].
    + rewrite Hs. unfold list_append. now rewrite <- !app_assoc.
    + cbn [map role flat_map app]. now rewrite Hr.
    + cbn [filter role String.eqb Ascii.eqb Bool.eqb map content]. now rewrite Hc.
Qed.

(** X14.  The chat stops at the first input line that reads quit in any
    mix of capitals: that line is not sent, the lines after it are not
    read, and no request is made for it.  Up to there every line was sent
    as a user message and answered by one assistant message, so the
    messages list is the system prompt followed by user and assistant
    messages in turn, the user messages being the lines typed, in
    order. *)
Theorem chat_stops_at_first_quit
  (prompt line : string) (before after : list string) :
  forallb (fun l => negb (says_quit l)) before = true ->
  says_quit line = true ->
  let r := start_gpt4_chat completion prompt (before ++ line :: after) in
  ended r = Quit
  /\ unread r = after
  /\ map role (sent r)
     = "system" :: flat_map (fun _ => ["user"; "assistant"]) before
  /\ hd_error (sent r) = Some (mkMessage "system" prompt)
  /\ map content (filter (fun m => String.eqb (role m) "user") (sent r))
     = before.
Proof.
  intros Hb Hq. unfold start_gpt4_chat.
  destruct (chat_loop_until_quit before line after
              [mkMessage "system" prompt] "" Hb Hq)
    as (He & Hu & added & Hs & Hr & Hc).
  cbv zeta. split; [exact He|]. split; [exact Hu|]. rewrite Hs.
  split; [cbn [app map role]; now rewrite Hr|].
  split; [reflexivity|]. cbn [app filter role String.eqb Ascii.eqb Bool.eqb].
  exact Hc.
Qed.

Lemma chat_loop_to_end (stdin : list string) :
  forall (messages : list message) (stdout : string),
    forallb (fun l => negb (says_quit l)) stdin = true ->
    let r := chat_loop completion stdin messages stdout in
    ended r = EndOfInput
    /\ unread r = []
    /\ (exists added,
           sent r = messages ++ added
           /\ map role added = flat_map (fun _ => ["user"; "assistant"]) stdin
           /\ map content (filter (fun m => String.eqb (role m) "user") added)
              = stdin).
Proof.
  induction stdin as [|l stdin IH]; intros messages stdout Hb.
  - cbn. repeat split. exists []. now rewrite app_nil_r.
  - cbn [forallb] in Hb. apply andb_true_iff in Hb. destruct Hb as [Hl Hb].
    apply negb_true_iff in Hl. unfold says_quit in Hl.
    cbn [chat_loop]. rewrite Hl.
    specialize (IH (list_append
                      (mkMessage "assistant"
                         (completion (list_append (mkMessage "user" l) messages)))
                      (list_append (mkMessage "user" l) messages))
                   (((stdout ++ "User: ") ++ "LLM: "
                     ++ completion (list_append (mkMessage "user" l) messages)
                     ++ nl)%string) Hb).
    cbv zeta in IH. destruct IH as (He & Hu & added & Hs & Hr & Hc).
    split; [exact He|]. split; [exact Hu|].
    exists (mkMessage "user" l
            :: mkMessage "assistant"
                 (completion (list_append (mkMessage "user" l) messages))
            :: added).
    split; [|split].
    + rewrite Hs. unfold list_append. now rewrite <- !app_assoc.
    + cbn [map role flat_map app]. now rewrite Hr.
    + cbn [filter role String.eqb Ascii.eqb Bool.eqb map content]. now rewrite Hc.
Qed.

(** X15.  When no input line reads quit, the chat answers every line and
    then ends because the input is used up ([input] raises [EOFError],
    which nothing catches): nothing is left unread, and the messages list
    holds the system prompt and one user and one assistant message per
    line. *)
Theorem chat_without_quit_reads_everything
  (prompt : string) (stdin : list string) :
  forallb (fun l => negb (says_quit l)) stdin = true ->
  let r := start_gpt4_chat completion prompt stdin in
  ended r = EndOfInput
  /\ unread r = []
  /\ map role (sent r)
     = "system" :: flat_map (fun _ => ["user"; "assistant"]) stdin
  /\ map content (filter (fun m => String.eqb (role m) "user") (sent r))
     = stdin.
Proof.
  intros Hb. unfold start_gpt4_chat.
  destruct (chat_loop_to_end stdin [mkMessage "system" prompt] "" Hb)
    as (He & Hu & added & Hs & Hr & Hc).
  cbv zeta. split; [exact He|]. split; [exact Hu|]. rewrite Hs.
  split; [cbn [app map role]; now rewrite Hr|].
  cbn [app filter role String.eqb Ascii.eqb Bool.eqb]. exact Hc.
Qed.

End ChatProperties.

Lemma chat_stops_at_first_quit_witness :
  let r := start_gpt4_chat (fun ms => "ok") "You are a network instructor."
             (["hello"; "why is r1 down?"] ++ "QuIt" :: ["more"]) in
  ended r = Quit /\ unread r = ["more"] /\ length (sent r) = 5%nat.
Proof.
  destruct (chat_stops_at_first_quit (fun ms => "ok")
              "You are a network instructor." "QuIt"
              ["hello"; "why is r1 down?"] ["more"] eq_refl eq_refl)
    as (He & Hu & Hr & _).
  cbv zeta. split; [exact He|]. split; [exact Hu|].
  rewrite <- (length_map role), Hr. reflexivity.
Defined.

Lemma chat_without_quit_reads_everything_witness :
  let r := start_gpt4_chat (fun ms => "ok") "You are a network instructor."
             ["hello"; "quit now"; " quit"] in
  ended r = EndOfInput /\ unread r = [] /\ length (sent r) = 7%nat.
Proof.
  destruct (chat_without_quit_reads_everything (fun ms => "ok")
              "You are a network instructor."
              ["hello"; "quit now"; " quit"] eq_refl)
    as (He & Hu & Hr & _).
  cbv zeta. split; [exact He|]. split; [exact Hu|].
  rewrite <- (length_map role), Hr. reflexivity.
Defined.

(** ** What the copy for stage 4 shows *)

Lemma heap_set_length (a : nat) (l : list string) (h : heap) :
  length (heap_set a l h) = length h.
Proof.
  revert a. induction h as [|x h IH]; intros [|a]; simpl; auto.
Qed.

Lemma heap_get_set_same (a : nat) (l : list string) (h : heap) :
  (a < length h)%nat -> heap_get a (heap_set a l h) = l.
Proof.
  unfold heap_get. revert a. induction h as [|x h IH]; intros [|a] Ha;
    simpl in *; try lia; [reflexivity|]. apply IH. lia.
Qed.

Lemma heap_get_set_other (a a' : nat) (l : list string) (h : heap) :
  a' <> a -> heap_get a' (heap_set a l h) = heap_get a' h.
Proof.
  unfold heap_get. revert a a'.
  induction h as [|x h IH]; intros [|a] [|a'] Hne; simpl; try reflexivity;
    try congruence.
  apply IH. congruence.
Qed.

Lemma ref_dict_get_in (k : string) (a : nat) (d : ref_dict) :
  dict_get k d = Some a -> In a (map snd d).
Proof.
  induction d as [|[k' a'] d IH]; simpl; [discriminate|].
  destruct (String.eqb k k'); [intros [= ->]; now left | auto].
Qed.

Lemma view_get (k : string) (d : ref_dict) (h : heap) :
  dict_get k (view d h) = option_map (fun a => heap_get a h) (dict_get k d).
Proof.
  induction d as [|[k' a'] d IH]; simpl; [reflexivity|].
  destruct (String.eqb k k'); [reflexivity | exact IH].
Qed.

Lemma view_set_unused (a : nat) (l : list string) (d : ref_dict) (h : heap) :
  ~ In a (map snd d) -> view d (heap_set a l h) = view d h.
Proof.
  induction d as [|[k' a'] d IH]; simpl; [reflexivity|].
  intros Hnin. rewrite heap_get_set_other by tauto. rewrite IH by tauto.
  reflexivity.
Qed.

Lemma view_set (k : string) (a : nat) (l : list string) (d : ref_dict)
  (h : heap) :
  refs_ok d (length h) ->
  dict_get k d = Some a ->
  view d (heap_set a l h) = dict_set k l (view d h).
Proof.
  induction d as [|[k' a'] d IH]; intros (Hk & Ha & Hb) Hget; [discriminate|].
  simpl in Hk, Ha, Hb, Hget.
  inversion Hk as [|? ? Hk1 Hk2]; subst. inversion Ha as [|? ? Ha1 Ha2]; subst.
  inversion Hb as [|? ? Hb1 Hb2]; subst.
  cbn [view map fst snd dict_set]. fold (view d (heap_set a l h)) (view d h).
  destruct (String.eqb_spec k k') as [->|Hne].
  - injection Hget as ->. rewrite heap_get_set_same by exact Hb1.
    now rewrite view_set_unused.
  - assert (a' <> a).
    { intros ->. apply Ha1. eapply ref_dict_get_in; eassumption. }
    rewrite heap_get_set_other by assumption.
    rewrite IH; [reflexivity | repeat split; assumption | exact Hget].
Qed.

Lemma ref_modify_sim (k : string) (f : list string -> list string)
  (d : ref_dict) (h : heap) :
  refs_ok d (length h) ->
  sim d (length h) (ref_modify k f d h) (dict_modify k f (view d h)).
Proof.
  intros Hok. unfold ref_modify, dict_modify, dict_getitem.
  rewrite view_get. destruct (dict_get k d) as [a|] eqn:E; cbn [option_map bind sim].
  - split; [apply heap_set_length|]. now rewrite (view_set k a _ d h Hok E).
  - reflexivity.
Qed.

Lemma sim_bind (d : ref_dict) (n : nat) (x : result heap) (y : result rtr_dict)
  (F : heap -> result heap) (G : rtr_dict -> result rtr_dict) :
  sim d n x y ->
  (forall h, length h = n -> sim d n (F h) (G (view d h))) ->
  sim d n (bind x F) (bind y G).
Proof.
  intros Hxy HFG. destruct x as [h|e]; cbn [sim] in Hxy.
  - destruct Hxy as [Hlen ->]. cbn [bind]. now apply HFG.
  - subst y. reflexivity.
Qed.

Lemma ref_modify_sim_at (k : string) (f : list string -> list string)
  (d : ref_dict) (n : nat) (h : heap) :
  refs_ok d n -> length h = n ->
  sim d n (ref_modify k f d h) (dict_modify k f (view d h)).
Proof. intros Hok <-. now apply ref_modify_sim. Qed.

Lemma add_base_configs_sim (d : ref_dict) (n : nat) (h : heap) (router : string) :
  refs_ok d n -> length h = n ->
  sim d n (add_base_configs_shared d h router)
    (add_base_configs (view d h) router).
Proof.
  intros Hok Hlen. unfold add_base_configs_shared, add_base_configs.
  apply sim_bind; [now apply ref_modify_sim_at | clear h Hlen; intros h Hlen].
  apply sim_bind; [now apply ref_modify_sim_at | clear h Hlen; intros h Hlen].
  apply sim_bind; [now apply ref_modify_sim_at | clear h Hlen; intros h Hlen].
  apply sim_bind; [now apply ref_modify_sim_at | clear h Hlen; intros h Hlen].
  apply sim_bind; [now apply ref_modify_sim_at | clear h Hlen; intros h Hlen].
  now apply ref_modify_sim_at.
Qed.

Lemma append_bgp_config_sim (d : ref_dict) (n : nat) (h : heap)
  (item : string * string) :
  refs_ok d n -> length h = n ->
  sim d n (append_bgp_config_shared d h item)
    (append_bgp_config (view d h) item).
Proof. intros Hok Hlen. destruct item. now apply ref_modify_sim_at. Qed.

Lemma foldM_sim {A : Type} (d : ref_dict) (n : nat)
  (F : heap -> A -> result heap) (G : rtr_dict -> A -> result rtr_dict)
  (l : list A) :
  (forall h x, length h = n -> sim d n (F h x) (G (view d h) x)) ->
  forall h, length h = n -> sim d n (foldM F l h) (foldM G l (view d h)).
Proof.
  intros HFG. induction l as [|x l IH]; intros h Hlen.
  - cbn. auto.
  - cbn [foldM]. apply sim_bind; [now apply HFG | exact IH].
Qed.

Lemma combine_fst {A B : Type} (l : list A) (l' : list B) :
  length l = length l' -> map fst (combine l l') = l.
Proof.
  revert l'. induction l as [|x l IH]; intros [|y l'] H; simpl in *;
    try discriminate; [reflexivity|]. f_equal. apply IH. lia.
Qed.

Lemma combine_snd {A B : Type} (l : list A) (l' : list B) :
  length l = length l' -> map snd (combine l l') = l'.
Proof.
  revert l'. induction l as [|x l IH]; intros [|y l'] H; simpl in *;
    try discriminate; [reflexivity|]. f_equal. apply IH. lia.
Qed.

Lemma view_allocate_from (rc : rtr_dict) :
  forall (before : heap),
    view (combine (dict_keys rc) (seq (length before) (length rc)))
      (before ++ map snd rc) = rc.
Proof.
  induction rc as [|[k v] rc IH]; intros before; [reflexivity|].
  cbn [dict_keys map fst snd length seq combine view].
  f_equal.
  - unfold heap_get. now rewrite nth_middle.
  - specialize (IH (before ++ [v])). rewrite length_app in IH. simpl in IH.
    rewrite Nat.add_1_r, <- app_assoc in IH. exact IH.
Qed.

Lemma allocate_ok (rc : rtr_dict) :
  NoDup (dict_keys rc) ->
  refs_ok (fst (allocate rc)) (length (snd (allocate rc)))
  /\ view (fst (allocate rc)) (snd (allocate rc)) = rc
  /\ dict_keys (fst (allocate rc)) = dict_keys rc.
Proof.
  intros Hnd. unfold allocate. cbn [fst snd].
  assert (Hlen : length (dict_keys rc) = length (seq 0 (length rc))).
  { unfold dict_keys. now rewrite length_map, length_seq. }
  split; [|split].
  - unfold refs_ok. rewrite combine_fst, combine_snd by exact Hlen.
    split; [exact Hnd|]. split; [apply seq_NoDup|].
    apply Forall_forall. intros a Ha. apply in_seq in Ha.
    rewrite length_map. lia.
  - exact (view_allocate_from rc []).
  - unfold dict_keys at 1. now apply combine_fst.
Qed.

(** X16.  The copy taken "for stage 4" before the assembly is a copy of
    the dictionary, not of its lists: when the assembly is over, [ip_data]
    shows for every router the fully assembled configuration - base lines,
    interior-protocol block and exterior-protocol text included - exactly
    as [rtr_configs] does, and the assembly on the shared list objects
    returns or raises as the assembly on the lists does. *)
Theorem ip_data_shows_final_configs (rc : rtr_dict) (bgp_config : dict string) :
  NoDup (dict_keys rc) ->
  assemble_shared rc bgp_config
  = (final <- assemble_configs rc bgp_config ;; Ok (final, final)).
Proof.
  intros Hnd. destruct (allocate_ok rc Hnd) as (Hok & Hview & Hkeys).
  unfold assemble_shared, assemble_configs.
  destruct (allocate rc) as [d h]. cbn [fst snd] in *. subst rc.
  rewrite <- Hkeys.
  assert (H1 : sim d (length h)
                 (foldM (add_base_configs_shared d) (dict_keys d) h)
                 (foldM add_base_configs (dict_keys d) (view d h))).
  { apply foldM_sim; [|reflexivity].
    intros h' x Hlen. now apply add_base_configs_sim. }
  destruct (foldM (add_base_configs_shared d) (dict_keys d) h) as [h1|e];
    cbn [sim] in H1.
  - destruct H1 as [Hlen1 ->]. cbn [bind].
    assert (H2 : sim d (length h)
                   (foldM (append_bgp_config_shared d) bgp_config h1)
                   (foldM append_bgp_config bgp_config (view d h1))).
    { apply foldM_sim; [|exact Hlen1].
      intros h' x Hlen. now apply append_bgp_config_sim. }
    destruct (foldM (append_bgp_config_shared d) bgp_config h1) as [h2|e];
      cbn [sim] in H2.
    + destruct H2 as [_ ->]. reflexivity.
    + rewrite H2. reflexivity.
  - rewrite H1. reflexivity.
Qed.

Lemma ip_data_shows_final_configs_witness :
  assemble_shared [("r1", ["interface eth1" ++ nl; " ip address 10.254.0.254/31" ++ nl])%string]
    [("r1", "router bgp 65001")]
  = Ok ([("r1", final_config "r1"
                  ["interface eth1" ++ nl; " ip address 10.254.0.254/31" ++ nl]%string
                  (Some "router bgp 65001"))],
        [("r1", final_config "r1"
                  ["interface eth1" ++ nl; " ip address 10.254.0.254/31" ++ nl]%string
                  (Some "router bgp 65001"))]).
Proof.
  assert (Hnd : forall v : list string, NoDup (dict_keys [("r1", v)])).
  { intros v. repeat constructor. simpl. tauto. }
  exact (ip_data_shows_final_configs
           [("r1", ["interface eth1" ++ nl; " ip address 10.254.0.254/31" ++ nl])%string]
           [("r1", "router bgp 65001")] (Hnd _)).
Defined.

(** ** How many links [main] can serve *)

Lemma parent_prefix_subnets :
  generate_31_subnets parent_prefix
  = Ok (consecutive_31 (dotted 10 254 0 0) 128).
Proof. vm_compute. reflexivity. Qed.

(** X17.  The parent prefix of [main] gives 128 subnets, so [main] cannot
    address more than 128 links: whenever the topology lists at least 129
    links of which the first 129 can be read, [main] raises [IndexError]
    whatever else it is given, and nothing is assembled or written. *)
Theorem main_serves_at_most_128_links
  (d : list (string * pyval)) (served rest : list pyval)
  (es : list endpoints) (bgp_config : dict string) (tool : child_run) :
  dict_get "links" d = Some (PyList (served ++ rest)) ->
  mapM link_endpoints served = Ok es ->
  length served = 129%nat ->
  main (PyDict d) bgp_config tool = Raise (IndexError "pop from empty list").
Proof.
  intros Hd Hes Hlen. unfold main. rewrite parent_prefix_subnets. cbn [bind].
  rewrite (addressing_info_links d _ _ Hd).
  rewrite (for_links_surplus served rest es); [reflexivity | exact Hes | |].
  - exact (generated_are_subnets parent_prefix _ parent_prefix_subnets).
  - rewrite consecutive_31_length. exact Hlen.
Qed.

Lemma main_serves_at_most_128_links_witness :
  main (PyDict [("links",
                 PyList (repeat (link_entry (mkEnds "r1" "eth1" "r2" "eth1")) 129
                         ++ [PyNone]))])
    [] (mkRun "" "" 0)
  = Raise (IndexError "pop from empty list").
Proof.
  apply (main_serves_at_most_128_links
           [("links",
             PyList (repeat (link_entry (mkEnds "r1" "eth1" "r2" "eth1")) 129
                     ++ [PyNone]))]
           (repeat (link_entry (mkEnds "r1" "eth1" "r2" "eth1")) 129) [PyNone]
           (repeat (mkEnds "r1" "eth1" "r2" "eth1") 129)).
  - reflexivity.
  - vm_compute. reflexivity.
  - reflexivity.
Defined.

(** ** Pool entries that are not /31 *)

Lemma unpack2_many {A : Type} (f : nat -> A) (n : nat) :
  (3 <= n)%nat ->
  unpack2 (map f (seq 0 n))
  = Raise (ValueError "too many values to unpack (expected 2)").
Proof.
  intros Hn. destruct n as [|[|[|n]]]; try lia. reflexivity.
Qed.

Lemma hosts_30 (s : IPv4Network) :
  valid_network s -> prefixlen s = 30 ->
  hosts s = Ok [network_address s + 1; network_address s + 2].
Proof.
  intros Hv H30. unfold hosts, max_prefixlen. rewrite H30.
  change (30 =? 32 - 1) with false. change (30 =? 32) with false. cbv iota.
  rewrite (broadcast_address_eq s Hv), H30. change (2 ^ (32 - 30)) with 4.
  unfold range, range_len. change (1 =? 0) with false. change (0 <? 1) with true.
  cbv iota.
  destruct (Z.ltb_spec (network_address s + 1) (network_address s + 4 - 1)); [|lia].
  replace (network_address s + 4 - 1 - (network_address s + 1) - 1) with 1 by lia.
  change (Z.to_nat (1 / 1 + 1)) with 2%nat. cbn [seq map].
  replace (network_address s + 1 + 1 * Z.of_nat 0) with (network_address s + 1) by lia.
  replace (network_address s + 1 + 1 * Z.of_nat 1) with (network_address s + 2) by lia.
  reflexivity.
Qed.

Lemma hosts_wide (s : IPv4Network) :
  valid_network s -> prefixlen s <= 29 ->
  (h <- hosts s ;; unpack2 h)
  = Raise (ValueError "too many values to unpack (expected 2)").
Proof.
  intros Hv Hp. pose proof Hv as (Hr & _ & _).
  unfold hosts, max_prefixlen.
  destruct (Z.eqb_spec (prefixlen s) (32 - 1)); [lia|].
  destruct (Z.eqb_spec (prefixlen s) 32); [lia|].
  rewrite (broadcast_address_eq s Hv).
  assert (Hbig : 8 <= 2 ^ (32 - prefixlen s)).
  { change 8 with (2 ^ 3). apply Z.pow_le_mono_r; lia. }
  unfold range, range_len. change (1 =? 0) with false. change (0 <? 1) with true.
  cbv iota.
  destruct (Z.ltb_spec (network_address s + 1)
              (network_address s + 2 ^ (32 - prefixlen s) - 1)); [|lia].
  cbn [bind]. apply unpack2_many. rewrite Z.div_1_r. lia.
Qed.

Lemma hosts_single (s : IPv4Network) :
  prefixlen s = 32 ->
  (h <- hosts s ;; unpack2 h)
  = Raise (ValueError "not enough values to unpack (expected 2)").
Proof.
  intros H32. unfold hosts, max_prefixlen. rewrite H32. reflexivity.
Qed.

(** X18.  The addressing loop does not check what size the pool's entries
    have.  A /30 entry is accepted: its two inner addresses (network
    address plus one and plus two) go to the two endpoints, written with
    [/30].  An entry of any other size except /31 makes the unpacking of
    its hosts raise [ValueError] - after the entry has already left the
    pool. *)
Theorem pool_entry_of_other_size
  (link : pyval) (e : endpoints) (s : IPv4Network) (rc : rtr_dict) (p : pool) :
  link_endpoints link = Ok e ->
  valid_network s ->
  (prefixlen s = 30 ->
   link_body link rc (p ++ [s])
   = (Ok (extend (b_router e)
            [interface_line (b_link e); address_line (network_address s + 2) 30]
            (extend (a_router e)
               [interface_line (a_link e); address_line (network_address s + 1) 30]
               rc)),
      p))
  /\ (prefixlen s <> 30 -> prefixlen s <> 31 ->
      exists msg, link_body link rc (p ++ [s]) = (Raise (ValueError msg), p)).
Proof.
  intros He Hv. split.
  - intros H30. unfold link_body, bindS, lift, pop, ret.
    rewrite He, list_pop_snoc, (hosts_30 s Hv H30). cbn [bind unpack2].
    rewrite H30.
    pose proof (ensure_append_twice (a_router e) (interface_line (a_link e))
                  (address_line (network_address s + 1) 30) rc) as Ha.
    destruct (dict_modify (a_router e) (list_append (interface_line (a_link e)))
                (ensure_router (a_router e) rc)) as [d1|] eqn:E1; [|discriminate].
    cbn [bind] in Ha. rewrite Ha.
    pose proof (ensure_append_twice (b_router e) (interface_line (b_link e))
                  (address_line (network_address s + 2) 30)
                  (extend (a_router e)
                     [interface_line (a_link e);
                      address_line (network_address s + 1) 30] rc)) as Hb.
    destruct (dict_modify (b_router e) (list_append (interface_line (b_link e))) _)
      as [d2|] eqn:E2; [|discriminate].
    cbn [bind] in Hb. rewrite Hb. reflexivity.
  - intros H30 H31. pose proof Hv as (Hr & _ & _).
    unfold link_body, bindS, lift, pop, ret. rewrite He, list_pop_snoc.
    destruct (Z.eq_dec (prefixlen s) 32) as [H32|H32].
    + rewrite (hosts_single s H32). eauto.
    + rewrite (hosts_wide s Hv) by lia. eauto.
Qed.

Lemma pool_entry_of_other_size_witness :
  link_body (link_entry (mkEnds "r1" "eth1" "r2" "eth1")) []
    ([] ++ [mkNet (dotted 10 254 0 0) 30])
  = (Ok [("r1", [("interface eth1" ++ nl)%string;
                 (" ip address 10.254.0.1/30" ++ nl)%string]);
         ("r2", [("interface eth1" ++ nl)%string;
                 (" ip address 10.254.0.2/30" ++ nl)%string])],
     []).
Proof.
  assert (Hv : valid_network (mkNet (dotted 10 254 0 0) 30)).
  { repeat split; solve [vm_compute; congruence | reflexivity]. }
  exact (proj1 (pool_entry_of_other_size
                  (link_entry (mkEnds "r1" "eth1" "r2" "eth1"))
                  (mkEnds "r1" "eth1" "r2" "eth1")
                  (mkNet (dotted 10 254 0 0) 30) [] [] eq_refl Hv)
               eq_refl).
Defined.
